(** * Usage-analytics dashboard: heatmap layout and records-page orchestration

    A shallow embedding of
    - [src/components/analytics/ActivityHeatmap.tsx] (week bucketing, month
      labels, responsive truncation, intensity levels), and
    - the usage-records page (status post-filter, connection guard, silent
      auto-refresh, pagination and debounce, API-key masking),
    followed by the properties proved about them. *)

From Stdlib Require Import ZArith List String Ascii Bool Lia QArith Sorted.
From coqutil Require Import Datatypes.RecordSetters.
Import ListNotations.
Import TriangleBracketNotations.
Open Scope Z_scope.

(* ================================================================== *)
(** ** JavaScript values used by the components *)

(** A JS number that is either an integer or [NaN] ([None]). *)
Definition JSNum := option Z.

(** [a !== b] on numbers: [NaN] differs from everything, itself included. *)
Definition strict_neq (a b : JSNum) : bool :=
  match a, b with
  | Some x, Some y => negb (x =? y)
  | _, _ => true
  end.

(** [a === n] for a number [a] and an integer literal [n]. *)
Definition strict_eqZ (a : JSNum) (n : Z) : bool :=
  match a with
  | Some x => x =? n
  | None => false
  end.

(* ================================================================== *)
(** ** The platform's [Date], restricted to UTC midnights

    The heatmap only ever builds [new Date(`${date}T00:00:00Z`)] and reads
    [getUTCDay()] and [getUTCMonth()].  Such a Date is a UTC midnight, so it is
    represented by its UTC calendar fields; its time value divided by
    [msPerDay] is [MakeDay].  The day arithmetic is ECMAScript's
    ([DayFromYear], [InLeapYear], [WeekDay]). *)
Module JSDate.

Record UTCDate := mkDate { year : Z; month : Z; mday : Z }.
(* [month] is 0-based, as [getUTCMonth] returns it; [mday] is 1-based. *)

Definition InLeapYear (y : Z) : bool :=
  ((y mod 4 =? 0) && negb (y mod 100 =? 0)) || (y mod 400 =? 0).

Definition DayFromYear (y : Z) : Z :=
  365 * (y - 1970) + (y - 1969) / 4 - (y - 1901) / 100 + (y - 1601) / 400.

Definition DaysInMonth (leap : bool) (m : Z) : Z :=
  match m with
  | 0 => 31 | 1 => if leap then 29 else 28 | 2 => 31 | 3 => 30
  | 4 => 31 | 5 => 30 | 6 => 31 | 7 => 31
  | 8 => 30 | 9 => 31 | 10 => 30 | 11 => 31
  | _ => 0
  end.

(** Day within the year on which month [m] starts. *)
Definition MonthStart (leap : bool) (m : Z) : Z :=
  let l := if leap then 1 else 0 in
  match m with
  | 0 => 0 | 1 => 31 | 2 => 59 + l | 3 => 90 + l
  | 4 => 120 + l | 5 => 151 + l | 6 => 181 + l | 7 => 212 + l
  | 8 => 243 + l | 9 => 273 + l | 10 => 304 + l | 11 => 334 + l
  | _ => 365 + l
  end.

Definition valid (d : UTCDate) : bool :=
  (0 <=? year d) && (year d <=? 9999) &&
  (0 <=? month d) && (month d <=? 11) &&
  (1 <=? mday d) && (mday d <=? DaysInMonth (InLeapYear (year d)) (month d)).

(** Days since 1970-01-01 (the time value over [msPerDay]). *)
Definition MakeDay (d : UTCDate) : Z :=
  DayFromYear (year d) + MonthStart (InLeapYear (year d)) (month d) + mday d - 1.

Definition WeekDay (day : Z) : Z := (day + 4) mod 7.

(** *** Parsing the ISO date part *)

Definition digit (c : ascii) : option Z :=
  let n := Z.of_nat (nat_of_ascii c) in
  if (48 <=? n) && (n <=? 57) then Some (n - 48) else None.

Definition digits2 (a b : ascii) : option Z :=
  match digit a, digit b with
  | Some x, Some y => Some (10 * x + y)
  | _, _ => None
  end.

Definition digits4 (a b c d : ascii) : option Z :=
  match digits2 a b, digits2 c d with
  | Some x, Some y => Some (100 * x + y)
  | _, _ => None
  end.

Definition checked (y m d : Z) : option UTCDate :=
  let r := mkDate y (m - 1) d in
  if valid r then Some r else None.

(** [new Date(s + "T00:00:00Z")]: the date part [s] is one of the ISO forms
    [YYYY], [YYYY-MM], [YYYY-MM-DD] with in-range fields; anything else is
    an Invalid Date ([None]).  (Expanded six-digit years and the engines'
    non-ISO fallbacks are outside the model and read as invalid.) *)
Definition parse (s : string) : option UTCDate :=
  match s with
  | String a (String b (String c (String d rest))) =>
      match digits4 a b c d with
      | None => None
      | Some y =>
          match rest with
          | EmptyString => checked y 1 1
          | String dash1 (String e (String f rest')) =>
              if negb (Ascii.eqb dash1 "-") then None else
              match digits2 e f with
              | None => None
              | Some m =>
                  match rest' with
                  | EmptyString => checked y m 1
                  | String dash2 (String g (String h EmptyString)) =>
                      if negb (Ascii.eqb dash2 "-") then None else
                      match digits2 g h with
                      | None => None
                      | Some dd => checked y m dd
                      end
                  | _ => None
                  end
              end
          | _ => None
          end
      end
  | _ => None
  end.

Definition getUTCDay (d : option UTCDate) : JSNum :=
  option_map (fun x => WeekDay (MakeDay x)) d.

Definition getUTCMonth (d : option UTCDate) : JSNum :=
  option_map month d.

End JSDate.

(* ================================================================== *)
(** ** ActivityHeatmap.tsx *)
Module Heatmap.
Import JSDate.

(** [ActivityHeatmapDay] *)
Record ActivityHeatmapDay := mkDay {
  date : string;
  requests : Z;
  total_tokens : Z
}.

(** [ActivityHeatmap] (the fetched payload) *)
Record ActivityHeatmapData := mkHeatmap {
  days : list ActivityHeatmapDay;
  max_requests : Z
}.

(** [{ month: string; colStart: number }]; [month] is [MONTHS[m]], which is
    [undefined] ([None]) when [m] is [NaN]. *)
Record MonthLabel := mkLabel {
  lmonth : option string;
  colStart : Z
}.

Definition MONTHS : list string :=
  ["1月"; "2月"; "3月"; "4月"; "5月"; "6月"; "7月"; "8月"; "9月"; "10月"; "11月"; "12月"]%string.

Definition MONTHS_at (m : JSNum) : option string :=
  match m with
  | Some i => if i <? 0 then None else nth_error MONTHS (Z.to_nat i)
  | None => None
  end.

(** [{ date: '', requests: -1, total_tokens: 0 }] *)
Definition sentinel : ActivityHeatmapDay := mkDay EmptyString (-1) 0.

Definition dateOf (day : ActivityHeatmapDay) : option UTCDate :=
  parse (date day).

(** The mutable locals of the [useMemo] body. *)
Record Acc := mkAcc {
  weeks : list (list ActivityHeatmapDay);
  monthLabels : list MonthLabel;
  currentWeek : list ActivityHeatmapDay;
  currentMonth : JSNum
}.

(** Body of [data.days.forEach((day) => ...)]. *)
Definition visit (a : Acc) (day : ActivityHeatmapDay) : Acc :=
  let d := dateOf day in
  let month := getUTCMonth d in
  let dayOfWeek := getUTCDay d in
  let a1 :=
    if strict_neq month (currentMonth a) then
      mkAcc (weeks a)
            (monthLabels a ++ [mkLabel (MONTHS_at month) (Z.of_nat (List.length (weeks a)))])
            (currentWeek a) month
    else a in
  let cw := currentWeek a1 ++ [day] in
  if strict_eqZ dayOfWeek 6 then
    mkAcc (weeks a1 ++ [cw]) (monthLabels a1) [] (currentMonth a1)
  else
    mkAcc (weeks a1) (monthLabels a1) cw (currentMonth a1).

(** The leading pad: [startDayOfWeek] sentinels (none when it is [NaN]). *)
Definition leadingPad (startDayOfWeek : JSNum) : list ActivityHeatmapDay :=
  match startDayOfWeek with
  | Some w => repeat sentinel (Z.to_nat w)
  | None => []
  end.

(** "Push remaining days": pad a non-empty last week up to 7 entries. *)
Definition finish (a : Acc) : Acc :=
  match currentWeek a with
  | [] => a
  | cw =>
      let padded := cw ++ repeat sentinel (7 - List.length cw)%nat in
      mkAcc (weeks a ++ [padded]) (monthLabels a) padded (currentMonth a)
  end.

(** The [{ weeks, monthLabels }] memo. *)
Definition layoutAcc (days : list ActivityHeatmapDay) : Acc :=
  match days with
  | [] => mkAcc [] [] [] (Some (-1))
  | d0 :: _ =>
      let startDayOfWeek := getUTCDay (dateOf d0) in
      finish (fold_left visit days
                (mkAcc [] [] (leadingPad startDayOfWeek) (Some (-1))))
  end.

Definition layout (days : list ActivityHeatmapDay)
  : list (list ActivityHeatmapDay) * list MonthLabel :=
  let a := layoutAcc days in (weeks a, monthLabels a).

(** *** Responsive truncation *)

Definition CELL_SIZE : Z := 11.
Definition CELL_GAP : Z := 3.
Definition WEEKDAY_LABEL_WIDTH : Z := 20.

(** [updateVisibleWeeks]: the value handed to [setVisibleWeeksCount] for a
    container of [width] pixels ([el.clientWidth]) and [weeksLength] weeks. *)
Definition updateVisibleWeeks (width weeksLength : Z) : Z :=
  if (width <=? 0) || (weeksLength =? 0) then weeksLength
  else
    let availableWidth := width - WEEKDAY_LABEL_WIDTH in
    let weeksCanFit := (availableWidth + CELL_GAP) / (CELL_SIZE + CELL_GAP) in
    Z.min (Z.max weeksCanFit 1) weeksLength.

(** [visibleWeeks] memo; [slice(k)] with [0 <= k] drops the first [k]. *)
Definition visibleWeeks {A} (weeks : list A) (visibleWeeksCount : Z) : list A :=
  let len := Z.of_nat (List.length weeks) in
  if (visibleWeeksCount >=? len) || (visibleWeeksCount =? 0) then weeks
  else skipn (Z.to_nat (len - visibleWeeksCount)) weeks.

(** [visibleMonthLabels] memo. *)
Definition visibleMonthLabels (monthLabels : list MonthLabel)
    (weeksLength visibleWeeksCount : Z) : list MonthLabel :=
  if (visibleWeeksCount >=? weeksLength) || (visibleWeeksCount =? 0) then monthLabels
  else
    let startVisibleIndex := weeksLength - visibleWeeksCount in
    map (fun label => mkLabel (lmonth label) (colStart label - startVisibleIndex))
        (filter (fun label => colStart label >=? startVisibleIndex) monthLabels).

(** *** Intensity levels *)

(** [getIntensityLevel].  The quotient [requests / maxRequests] is taken
    exactly (a rational); for counts below 2^53 the double-precision
    quotient compares with 0.25, 0.5 and 0.75 the same way. *)
Definition getIntensityLevel (requests maxRequests : Z) : Z :=
  if requests =? 0 then 0
  else if maxRequests =? 0 then 0
  else
    let ratio := (inject_Z requests / inject_Z maxRequests)%Q in
    if Qle_bool ratio (1 # 4) then 1
    else if Qle_bool ratio (1 # 2) then 2
    else if Qle_bool ratio (3 # 4) then 3
    else 4.

(** What a cell's [<div>] carries: the [empty] class and [data-level]. *)
Record Cell := mkCell { cellEmpty : bool; dataLevel : Z }.

Definition renderCell (day : ActivityHeatmapDay) (max_requests : Z) : Cell :=
  mkCell (requests day <? 0)
         (if requests day >=? 0
          then getIntensityLevel (requests day) max_requests
          else 0).

(** *** Vocabulary of the statements *)

(** A padding entry, [date = ''] and [requests = -1]. *)
Definition isSentinel (d : ActivityHeatmapDay) : bool :=
  String.eqb (date d) EmptyString && (requests d =? -1).

Definition dropSentinels (l : list ActivityHeatmapDay) : list ActivityHeatmapDay :=
  filter (fun d => negb (isSentinel d)) l.

(** Every entry of [days] is the UTC day after [prev]'s, one after the other. *)
Fixpoint chain (prev : Z) (days : list ActivityHeatmapDay) : bool :=
  match days with
  | [] => true
  | d :: t =>
      match dateOf d with
      | Some u => (MakeDay u =? prev + 1) && chain (MakeDay u) t
      | None => false
      end
  end.

(** A chronological, calendar-contiguous feed of well-formed dates. *)
Definition contiguous (days : list ActivityHeatmapDay) : bool :=
  match days with
  | [] => true
  | d :: t =>
      match dateOf d with
      | Some u => chain (MakeDay u) t
      | None => false
      end
  end.

(** *** The card's figures and grid *)

(** [hasData]: [data && data.days && data.days.length > 0] *)
Definition hasData (data : option ActivityHeatmapData) : bool :=
  match data with
  | Some d => negb (List.length (days d) =? 0)%nat
  | None => false
  end.

(** [data?.days?.filter(d => d.requests > 0).length || 0] *)
Definition activeDays (data : option ActivityHeatmapData) : Z :=
  match data with
  | Some d => Z.of_nat (List.length (filter (fun day => 0 <? requests day) (days d)))
  | None => 0
  end.

(** The grid: one column of cells per visible week. *)
Definition renderGrid (ws : list (list ActivityHeatmapDay)) (max_requests : Z)
  : list (list Cell) :=
  map (map (fun day => renderCell day max_requests)) ws.

(** What the card renders: the spinner, the error text, the empty text, or
    the statistics line with the month labels and the grid. *)
Inductive HeatmapView :=
| LoadingView
| ErrorView
| EmptyView
| GridView (active : Z) (labels : list MonthLabel) (grid : list (list Cell)).

(** The component's [return]s, for the stored [visibleWeeksCount]. *)
Definition heatmapView (data : option ActivityHeatmapData)
    (isLoading hasError : bool) (visibleWeeksCount : Z) : HeatmapView :=
  if isLoading then LoadingView
  else if hasError then ErrorView
  else
    match data with
    | Some d =>
        if hasData data then
          let '(ws, labels) := layout (days d) in
          GridView (activeDays data)
                   (visibleMonthLabels labels (Z.of_nat (List.length ws)) visibleWeeksCount)
                   (renderGrid (visibleWeeks ws visibleWeeksCount) (max_requests d))
        else EmptyView
    | None => EmptyView
    end.

(** The cells that carry a colour: [data-level] 1 to 4. *)
Definition colouredCells (grid : list (list Cell)) : Z :=
  Z.of_nat (List.length (filter (fun c => 1 <=? dataLevel c) (List.concat grid))).

End Heatmap.


(* ================================================================== *)
(** ** The usage-records page *)
Module RecordsPage.

Inductive PeriodValue := today | yesterday | last7days | last30days | last90days.
(** ['__all__' | 'streaming' | 'standard' | 'failed'] *)
Inductive StatusValue := all_status | streaming | standard | failed.
Inductive TabType := request_headers | request_body | response_headers | response_body.

(** The fields of [UsageRecord] that the page's logic reads. *)
Record UsageRecord := mkRecord {
  id : Z;
  api_key : option string;
  is_streaming : bool;
  success : bool;
  status_code : option Z
}.

Record UsageRecordsListQuery := mkQuery {
  q_page : Z;
  q_page_size : Z;
  q_sort_by : string;
  q_sort_order : string;
  q_start_time : option string;
  q_end_time : option string;
  q_model : option string;
  q_provider : option string
}.

Record DateRange := mkRange {
  start_time : option string;
  end_time : option string
}.

(** *** Small JavaScript helpers *)

Fixpoint repeatString (s : string) (n : nat) : string :=
  match n with
  | O => EmptyString
  | S k => (s ++ repeatString s k)%string
  end.

(** [maskApiKey]; a string is its sequence of code units. *)
Definition maskApiKey (key : option string) : string :=
  match key with
  | None => "-"
  | Some k =>
      if (String.length k =? 0)%nat then "-"
      else if (String.length k <=? 8)%nat then repeatString "*" (String.length k)
      else (substring 0 4 k ++ "****" ++ substring (String.length k - 4) 4 k)%string
  end.

(** [x || []] *)
Definition orEmpty {A} (x : option (list A)) : list A :=
  match x with Some l => l | None => [] end.

(** [message || fallback] *)
Definition orDefault (message fallback : string) : string :=
  if (String.length message =? 0)%nat then fallback else message.

(** Truthiness of an optional number: present and not 0. *)
Definition truthy (n : option Z) : bool :=
  match n with Some v => negb (v =? 0) | None => false end.

Definition geZ (n : option Z) (k : Z) : bool :=
  match n with Some v => k <=? v | None => false end.

(** [.filter(Boolean)] on strings drops the empty ones. *)
Definition filterBoolean (l : list string) : list string :=
  filter (fun s => negb (String.length s =? 0)%nat) l.

Fixpoint insertSorted (x : string) (l : list string) : list string :=
  match l with
  | [] => [x]
  | y :: t => if String.leb x y then x :: l else y :: insertSorted x t
  end.

(** [.sort()], by code units. *)
Definition sortStrings (l : list string) : list string :=
  fold_right insertSorted [] l.

(** The callback of [filteredRecords.filter(...)] in [loadRecords]. *)
Definition statusPredicate (statusFilter : StatusValue) (record : UsageRecord) : bool :=
  match statusFilter with
  | streaming => is_streaming record && success record
  | standard => negb (is_streaming record) && success record
  | failed =>
      negb (success record) ||
      (truthy (status_code record) && geZ (status_code record) 400)
  | all_status => true
  end.

(** The three badges of [getStatusBadge]: destructive "失败", secondary
    "流式", outline "标准". *)
Inductive Badge := badge_failed | badge_streaming | badge_standard.

(** [getStatusBadge] *)
Definition getStatusBadge (record : UsageRecord) : Badge :=
  if negb (success record) ||
     (truthy (status_code record) && geZ (status_code record) 400)
  then badge_failed
  else if is_streaming record then badge_streaming
  else badge_standard.

Section Page.
(** Payloads of the aggregate endpoints, only stored and handed to the
    cards; their shapes play no part here. *)
Context {ModelStats ProviderStats UsageSummary RequestTimelineData : Type}.

(** [getDateRangeFromPeriod] reads the wall clock and the local time zone;
    its result for each period is taken as given. *)
Variable getDateRangeFromPeriod : PeriodValue -> DateRange.

(** One field per [useState] hook, and the auth store's
    [connectionStatus]. *)
Record PageState := mkState {
  connectionStatus : string;
  records : list UsageRecord;
  loading : bool;
  error : string;
  total : Z;
  page : Z;
  pageSize : Z;
  selectedPeriod : PeriodValue;
  modelFilter : string;
  providerFilter : string;
  statusFilter : StatusValue;
  selectedRecord : option UsageRecord;
  detailLoading : bool;
  activeTab : TabType;
  autoRefresh : bool;
  heatmapData : option Heatmap.ActivityHeatmapData;
  heatmapLoading : bool;
  heatmapError : bool;
  modelStats : list ModelStats;
  modelStatsLoading : bool;
  modelStatsError : bool;
  usageSummary : option UsageSummary;
  summaryLoading : bool;
  summaryError : bool;
  providerStats : list ProviderStats;
  providerStatsLoading : bool;
  providerStatsError : bool;
  timelineData : option RequestTimelineData;
  timelineLoading : bool;
  timelineError : bool;
  filterOptionsLoading : bool;
  availableModels : list string;
  availableProviders : list string
}.

(** *** The backend *)

Record ListResult := mkListResult {
  lr_records : option (list UsageRecord);
  lr_total : Z
}.
Record OptionsResult := mkOptions {
  or_models : option (list string);
  or_providers : option (list string)
}.

(** The calls on [usageRecordsApi], each with its result type. *)
Inductive Request : Type -> Type :=
| api_list (query : UsageRecordsListQuery) : Request ListResult
| api_getById (rid : Z) : Request UsageRecord
| api_getOptions (s e : option string) : Request OptionsResult
| api_getHeatmap (ndays : Z) : Request Heatmap.ActivityHeatmapData
| api_getModelStats (s e : option string) : Request (option (list ModelStats))
| api_getSummary (s e : option string) : Request UsageSummary
| api_getProviderStats (s e : option string) : Request (option (list ProviderStats))
| api_getTimeline (s e : option string) : Request RequestTimelineData.

Inductive Sent : Type :=
| sent {R : Type} (req : Request R).

(** A settled promise: rejected with a message, or resolved. *)
Definition Settled (R : Type) : Type := (string + R)%type.

Definition Backend := forall R, Request R -> Settled R.

(** *** Asynchronous functions

    An [async] function body: state setters, awaited calls (with what
    follows for either way the promise settles), notifications. *)
Inductive Async : Type :=
| Done
| Update (f : PageState -> PageState) (k : Async)
| Await {R : Type} (req : Request R) (k : Settled R -> Async)
| Notify (message : string) (k : Async).

Fixpoint andThen (p q : Async) : Async :=
  match p with
  | Done => q
  | Update f k => Update f (andThen k q)
  | Await req k => Await req (fun r => andThen (k r) q)
  | Notify m k => Notify m (andThen k q)
  end.

(** [try { const v = await req; ok(v) } catch { err(message) } finally { fin }] *)
Definition tryAwait {R} (req : Request R)
    (ok : R -> Async) (err : string -> Async) (fin : Async) : Async :=
  Await req (fun r =>
    andThen (match r with inr v => ok v | inl message => err message end) fin).

Definition setState (f : PageState -> PageState) : Async := Update f Done.

(** What running a body against a backend leaves: the final state, the
    calls sent, the state on screen while each call was in flight, and
    the notifications shown. *)
Record Outcome := mkOutcome {
  final : PageState;
  calls : list Sent;
  inFlight : list PageState;
  notices : list string
}.

Fixpoint run (b : Backend) (p : Async) (st : PageState) : Outcome :=
  match p with
  | Done => mkOutcome st [] [] []
  | Update f k => run b k (f st)
  | Await req k =>
      let o := run b (k (b _ req)) st in
      mkOutcome (final o) (sent req :: calls o) (st :: inFlight o) (notices o)
  | Notify m k =>
      let o := run b k st in
      mkOutcome (final o) (calls o) (inFlight o) (m :: notices o)
  end.

(** *** The loaders

    Each takes the render's values [c] its closure captured; setters act
    on the live state. *)

Definition connected (c : PageState) : bool :=
  (connectionStatus c =? "connected")%string.

Definition loadFilterOptions (c : PageState) : Async :=
  if negb (connected c) then Done
  else
    Update (fun s => s <| filterOptionsLoading := true |>)
    (let dateRange := getDateRangeFromPeriod (selectedPeriod c) in
     tryAwait (api_getOptions (start_time dateRange) (end_time dateRange))
       (fun result =>
          setState (fun s => s
            <| availableModels := sortStrings (filterBoolean (orEmpty (or_models result))) |>
            <| availableProviders := sortStrings (filterBoolean (orEmpty (or_providers result))) |>))
       (fun _ =>
          setState (fun s => s <| availableModels := [] |> <| availableProviders := [] |>))
       (setState (fun s => s <| filterOptionsLoading := false |>))).

Definition loadAnalytics (c : PageState) : Async :=
  if negb (connected c) then Done
  else
    let dateRange := getDateRangeFromPeriod (selectedPeriod c) in
    let s0 := start_time dateRange in
    let e0 := end_time dateRange in
    (* heatmap *)
    andThen
      (Update (fun s => s <| heatmapLoading := true |> <| heatmapError := false |>)
         (tryAwait (api_getHeatmap 500)
            (fun data => setState (fun s => s <| heatmapData := Some data |>))
            (fun _ => setState (fun s => s <| heatmapError := true |>))
            (setState (fun s => s <| heatmapLoading := false |>))))
    (* model stats *)
    (andThen
      (Update (fun s => s <| modelStatsLoading := true |> <| modelStatsError := false |>)
         (tryAwait (api_getModelStats s0 e0)
            (fun result => setState (fun s => s <| modelStats := orEmpty result |>))
            (fun _ => setState (fun s => s <| modelStatsError := true |>))
            (setState (fun s => s <| modelStatsLoading := false |>))))
    (* usage summary *)
    (andThen
      (Update (fun s => s <| summaryLoading := true |> <| summaryError := false |>)
         (tryAwait (api_getSummary s0 e0)
            (fun data => setState (fun s => s <| usageSummary := Some data |>))
            (fun _ => setState (fun s => s <| summaryError := true |>))
            (setState (fun s => s <| summaryLoading := false |>))))
    (* provider stats *)
    (andThen
      (Update (fun s => s <| providerStatsLoading := true |> <| providerStatsError := false |>)
         (tryAwait (api_getProviderStats s0 e0)
            (fun result => setState (fun s => s <| providerStats := orEmpty result |>))
            (fun _ => setState (fun s => s <| providerStatsError := true |>))
            (setState (fun s => s <| providerStatsLoading := false |>))))
    (* request timeline *)
      (Update (fun s => s <| timelineLoading := true |> <| timelineError := false |>)
         (tryAwait (api_getTimeline s0 e0)
            (fun data => setState (fun s => s <| timelineData := Some data |>))
            (fun _ => setState (fun s => s <| timelineError := true |>))
            (setState (fun s => s <| timelineLoading := false |>))))))).

Definition notAll (f : string) : option string :=
  if (f =? "__all__")%string then None else Some f.

(** The [query] object of [loadRecords]. *)
Definition listQuery (c : PageState) (resetPage : bool) : UsageRecordsListQuery :=
  let currentPage := if resetPage then 1 else page c in
  let dateRange := getDateRangeFromPeriod (selectedPeriod c) in
  mkQuery currentPage (pageSize c) "timestamp" "desc"
          (start_time dateRange) (end_time dateRange)
          (notAll (modelFilter c)) (notAll (providerFilter c)).

Definition load_error_default : string := "加载使用记录失败".
Definition load_detail_error_default : string := "加载详情失败".

Definition loadRecords (c : PageState) (resetPage isSilent : bool) : Async :=
  if negb (connected c) then setState (fun s => s <| loading := false |>)
  else
    andThen (if negb isSilent then setState (fun s => s <| loading := true |>) else Done)
    (Update (fun s => s <| error := EmptyString |>)
    (andThen (if resetPage then setState (fun s => s <| page := 1 |>) else Done)
    (tryAwait (api_list (listQuery c resetPage))
       (fun result =>
          let filteredRecords :=
            match statusFilter c with
            | all_status => orEmpty (lr_records result)
            | f => filter (statusPredicate f) (orEmpty (lr_records result))
            end in
          setState (fun s => s <| records := filteredRecords |> <| total := lr_total result |>))
       (fun message =>
          if negb isSilent
          then setState (fun s => s <| error := orDefault message load_error_default |>)
          else Done)
       (if negb isSilent then setState (fun s => s <| loading := false |>) else Done)))).

Definition loadRecordDetail (rid : Z) : Async :=
  Update (fun s => s <| detailLoading := true |>)
  (tryAwait (api_getById rid)
     (fun record => setState (fun s => s <| selectedRecord := Some record |>))
     (fun message =>
        Notify (orDefault message load_detail_error_default) Done)
     (setState (fun s => s <| detailLoading := false |>))).

Definition handleRowClick (record : UsageRecord) : Async :=
  Update (fun s => s <| activeTab := request_body |>)
         (loadRecordDetail (id record)).

Definition handlePageChange (newPage : Z) (s : PageState) : PageState :=
  s <| page := newPage |>.

Definition handlePageSizeChange (newSize : Z) (s : PageState) : PageState :=
  s <| pageSize := newSize |> <| page := 1 |>.

(** *** Rendering, effects and timers

    A page is the live state, the two timer handles (each with the time it
    is due and the render values its callback closed over), a clock in
    milliseconds, and the calls sent so far.  Every started load is run to
    completion before the next one starts. *)
Record Page := mkPage {
  state : PageState;
  filterTimeout : option (Z * PageState);
  autoRefreshInterval : option (Z * PageState);
  clock : Z;
  log : list Sent
}.

Definition perform (b : Backend) (p : Async) (pg : Page) : Page :=
  let o := run b p (state pg) in
  pg <| state := final o |> <| log := (log pg ++ calls o)%list |>.

Definition period_eqb (a b : PeriodValue) : bool :=
  match a, b with
  | today, today | yesterday, yesterday | last7days, last7days
  | last30days, last30days | last90days, last90days => true
  | _, _ => false
  end.

Definition status_eqb (a b : StatusValue) : bool :=
  match a, b with
  | all_status, all_status | streaming, streaming
  | standard, standard | failed, failed => true
  | _, _ => false
  end.

(** Dependency arrays; each is [true] when the two renders agree on it. *)
Definition sameFilterDeps (o n : PageState) : bool :=
  period_eqb (selectedPeriod o) (selectedPeriod n) &&
  String.eqb (modelFilter o) (modelFilter n) &&
  String.eqb (providerFilter o) (providerFilter n) &&
  status_eqb (statusFilter o) (statusFilter n).

Definition samePageDeps (o n : PageState) : bool :=
  (page o =? page n) && (pageSize o =? pageSize n) &&
  String.eqb (connectionStatus o) (connectionStatus n).

Definition sameAnalyticsDeps (o n : PageState) : bool :=
  String.eqb (connectionStatus o) (connectionStatus n) &&
  period_eqb (selectedPeriod o) (selectedPeriod n).

(** [loadRecords] and [loadAnalytics] are new functions whenever their
    [useCallback] dependencies change. *)
Definition sameLoadRecords (o n : PageState) : bool :=
  samePageDeps o n && sameFilterDeps o n.

Definition sameAutoRefreshDeps (o n : PageState) : bool :=
  Bool.eqb (autoRefresh o) (autoRefresh n) &&
  sameLoadRecords o n && sameAnalyticsDeps o n.

(** "Handle filter changes with debounce": the pending timeout is cleared
    and a new one set, 300 ms from now. *)
Definition filterEffect (o n : PageState) (pg : Page) : Page :=
  if sameFilterDeps o n then pg
  else pg <| filterTimeout := Some (clock pg + 300, n) |>.

(** "Handle page changes independently" *)
Definition pageEffect (b : Backend) (o n : PageState) (pg : Page) : Page :=
  if samePageDeps o n then pg
  else perform b (loadRecords n false false) pg.

(** "Load analytics + filter options (period only)" *)
Definition analyticsEffect (b : Backend) (o n : PageState) (pg : Page) : Page :=
  if sameAnalyticsDeps o n then pg
  else perform b (loadFilterOptions n) (perform b (loadAnalytics n) pg).

(** One round of auto refresh: [loadRecords(false, true); loadAnalytics()]. *)
Definition refreshOnce (b : Backend) (c : PageState) (pg : Page) : Page :=
  perform b (loadAnalytics c) (perform b (loadRecords c false true) pg).

(** "Handle auto refresh": the old interval is cleared; when enabled, both
    are refreshed at once and every 5000 ms from now. *)
Definition autoRefreshEffect (b : Backend) (o n : PageState) (pg : Page) : Page :=
  if sameAutoRefreshDeps o n then pg
  else
    let cleared := pg <| autoRefreshInterval := None |> in
    if autoRefresh n then
      (refreshOnce b n cleared) <| autoRefreshInterval := Some (clock pg + 5000, n) |>
    else cleared.

(** The effects of the render that follows render [o], in source order;
    the new render's values are the live state at that point. *)
Definition rerender (b : Backend) (o : PageState) (pg : Page) : Page :=
  let n := state pg in
  autoRefreshEffect b o n
    (analyticsEffect b o n
       (pageEffect b o n
          (filterEffect o n pg))).

(** A state change made by a handler, then the render it causes. *)
Definition dispatch (b : Backend) (f : PageState -> PageState) (pg : Page) : Page :=
  rerender b (state pg) (pg <| state := f (state pg) |>).

Inductive Event :=
| SetSelectedPeriod (v : PeriodValue)
| SetModelFilter (v : string)
| SetProviderFilter (v : string)
| SetStatusFilter (v : StatusValue)
| PageChange (newPage : Z)
| PageSizeChange (newSize : Z)
| ToggleAutoRefresh
| ConnectionStatusIs (v : string)
| RowClick (record : UsageRecord)
| CloseDrawer
| HeaderRefresh
| Wait (ms : Z)
| FilterTimeoutFires
| IntervalFires.

Definition notDueBefore (t : Z) (timer : option (Z * PageState)) : bool :=
  match timer with
  | Some (due, _) => t <=? due
  | None => true
  end.

(** One event; [None] when it cannot happen now (a timer that is not due,
    or a wait that would run past a pending timer). *)
Definition step (b : Backend) (ev : Event) (pg : Page) : option Page :=
  match ev with
  | SetSelectedPeriod v => Some (dispatch b (fun s => s <| selectedPeriod := v |>) pg)
  | SetModelFilter v => Some (dispatch b (fun s => s <| modelFilter := v |>) pg)
  | SetProviderFilter v => Some (dispatch b (fun s => s <| providerFilter := v |>) pg)
  | SetStatusFilter v => Some (dispatch b (fun s => s <| statusFilter := v |>) pg)
  | PageChange newPage => Some (dispatch b (handlePageChange newPage) pg)
  | PageSizeChange newSize => Some (dispatch b (handlePageSizeChange newSize) pg)
  | ToggleAutoRefresh =>
      Some (dispatch b (fun s => s <| autoRefresh := negb (autoRefresh s) |>) pg)
  | ConnectionStatusIs v => Some (dispatch b (fun s => s <| connectionStatus := v |>) pg)
  | RowClick record =>
      Some (rerender b (state pg) (perform b (handleRowClick record) pg))
  | CloseDrawer => Some (dispatch b (fun s => s <| selectedRecord := None |>) pg)
  | HeaderRefresh =>
      Some (rerender b (state pg) (perform b (loadRecords (state pg) false false) pg))
  | Wait ms =>
      if (0 <=? ms) && notDueBefore (clock pg + ms) (filterTimeout pg)
         && notDueBefore (clock pg + ms) (autoRefreshInterval pg)
      then Some (pg <| clock := clock pg + ms |>)
      else None
  | FilterTimeoutFires =>
      match filterTimeout pg with
      | Some (due, c) =>
          if due <=? clock pg then
            Some (rerender b (state pg)
                    (perform b (loadRecords c true false)
                       (pg <| filterTimeout := None |>)))
          else None
      | None => None
      end
  | IntervalFires =>
      match autoRefreshInterval pg with
      | Some (due, c) =>
          if due <=? clock pg then
            Some (rerender b (state pg)
                    (refreshOnce b c
                       (pg <| autoRefreshInterval := Some (due + 5000, c) |>)))
          else None
      | None => None
      end
  end.

Fixpoint exec (b : Backend) (evs : list Event) (pg : Page) : option Page :=
  match evs with
  | [] => Some pg
  | ev :: rest =>
      match step b ev pg with
      | Some pg' => exec b rest pg'
      | None => None
      end
  end.

(** *** Vocabulary of the statements *)

Definition isListCall (c : Sent) : bool :=
  match c with
  | sent (api_list _) => true
  | sent _ => false
  end.

Definition listCalls (l : list Sent) : list Sent := filter isListCall l.

(** [Each Q p]: every state setter in the body [p] satisfies [Q], however
    the awaited calls settle. *)
Inductive Each (Q : (PageState -> PageState) -> Prop) : Async -> Prop :=
| Each_Done : Each Q Done
| Each_Update f k : Q f -> Each Q k -> Each Q (Update f k)
| Each_Await R (req : Request R) k : (forall r, Each Q (k r)) -> Each Q (Await req k)
| Each_Notify m k : Each Q k -> Each Q (Notify m k).

(** The body never changes the projection [g] of the state. *)
Definition Keeps {A} (g : PageState -> A) (p : Async) : Prop :=
  Each (fun f => forall s, g (f s) = g s) p.

(** The filters and the page size, the connection and the auto-refresh
    switch: what a reload is not supposed to touch. *)
Definition controls (s : PageState) :=
  (pageSize s, selectedPeriod s, modelFilter s, providerFilter s,
   statusFilter s, connectionStatus s, autoRefresh s).

(** The values of the [useState] hooks at mount. *)
Definition initialState (status : string) : PageState :=
  mkState status [] true EmptyString 0 1 20 today "__all__" "__all__" all_status
          None false request_body false
          None true false [] true false None true false [] true false
          None true false true [] [].

Definition initialPage (status : string) : Page :=
  mkPage (initialState status) None None 0 [].

(** *** Mount

    The first render runs every effect once, in source order, with the
    initial values of the hooks. *)
Definition mount (b : Backend) (status : string) : Page :=
  let n := initialState status in
  let pg0 := initialPage status in
  let pg1 := pg0 <| filterTimeout := Some (clock pg0 + 300, n) |> in
  let pg2 := perform b (loadRecords n false false) pg1 in
  let pg3 := perform b (loadFilterOptions n) (perform b (loadAnalytics n) pg2) in
  if autoRefresh n
  then (refreshOnce b n pg3) <| autoRefreshInterval := Some (clock pg0 + 5000, n) |>
  else pg3.

(** The four filters. *)
Definition filters (s : PageState) :=
  (selectedPeriod s, modelFilter s, providerFilter s, statusFilter s).

(** The calls of one analytics load, for the render values [c]. *)
Definition analyticsCalls (c : PageState) : list Sent :=
  let dateRange := getDateRangeFromPeriod (selectedPeriod c) in
  let s0 := start_time dateRange in
  let e0 := end_time dateRange in
  [sent (api_getHeatmap 500); sent (api_getModelStats s0 e0);
   sent (api_getSummary s0 e0); sent (api_getProviderStats s0 e0);
   sent (api_getTimeline s0 e0)].

End Page.

(** *** Sample data for the worked examples *)

Definition sampleRange (_ : PeriodValue) : DateRange := mkRange None None.

Definition sampleRows : list UsageRecord :=
  [ mkRecord 1 (Some "sk-live-0123456789abcdef"%string) true true (Some 200);
    mkRecord 2 (Some "sk-test"%string) false true (Some 200);
    mkRecord 3 None false false (Some 500);
    mkRecord 4 None true true (Some 429);
    mkRecord 5 None false false None ].

(** A backend that serves the list, the detail and the options, and fails
    every aggregate call. *)
Definition sampleBackend : @Backend unit unit unit unit :=
  fun R req =>
    match req in Request T return Settled T with
    | api_list _ => inr (mkListResult (Some sampleRows) 57)
    | api_getById rid => inr (mkRecord rid None false true (Some 200))
    | api_getOptions _ _ => inr (mkOptions (Some ["b"; "a"]%string) None)
    | api_getHeatmap _ => inl "502"%string
    | api_getModelStats _ _ => inl "502"%string
    | api_getSummary _ _ => inl "502"%string
    | api_getProviderStats _ _ => inl "502"%string
    | api_getTimeline _ _ => inl "502"%string
    end.

(** A backend that is down. *)
Definition deadBackend : @Backend unit unit unit unit :=
  fun R _ => inl "Network Error"%string.

End RecordsPage.

Import JSDate Heatmap.

(* ================================================================== *)
(** * Properties *)

(** ** Calendar arithmetic *)

Lemma WeekDay_range n : 0 <= WeekDay n < 7.
Proof. unfold WeekDay. apply Z.mod_pos_bound. lia. Qed.

Lemma WeekDay_succ n :
  WeekDay (n + 1) = if WeekDay n =? 6 then 0 else WeekDay n + 1.
Proof.
  unfold WeekDay.
  destruct (Z.eqb_spec ((n + 4) mod 7) 6) as [E|E];
    Z.div_mod_to_equations; lia.
Qed.

(** ** Week bucketing *)

Definition flat (a : Acc) : list ActivityHeatmapDay :=
  List.concat (weeks a) ++ currentWeek a.

Lemma visit_flat a d : flat (visit a d) = flat a ++ [d].
Proof.
  unfold flat, visit.
  destruct (strict_neq _ _), (strict_eqZ _ _); simpl;
    rewrite ?concat_app; simpl; rewrite ?app_nil_r, ?app_assoc; reflexivity.
Qed.

Lemma fold_visit_flat days : forall a,
  flat (fold_left visit days a) = flat a ++ days.
Proof.
  induction days as [|d t IH]; intros a; simpl.
  - now rewrite app_nil_r.
  - rewrite IH, visit_flat, <- app_assoc. reflexivity.
Qed.

Lemma visit_weeks a d :
  weeks (visit a d) =
  if strict_eqZ (getUTCDay (dateOf d)) 6
  then weeks a ++ [currentWeek a ++ [d]] else weeks a.
Proof.
  unfold visit. destruct (strict_neq _ _), (strict_eqZ _ _); reflexivity.
Qed.

Lemma visit_currentWeek a d :
  currentWeek (visit a d) =
  if strict_eqZ (getUTCDay (dateOf d)) 6 then [] else currentWeek a ++ [d].
Proof.
  unfold visit. destruct (strict_neq _ _), (strict_eqZ _ _); reflexivity.
Qed.

Definition seven (w : list ActivityHeatmapDay) : Prop := List.length w = 7%nat.

Lemma fold_visit_seven days : forall prev a,
  chain prev days = true ->
  Forall seven (weeks a) ->
  Z.of_nat (List.length (currentWeek a)) = WeekDay (prev + 1) ->
  Forall seven (weeks (fold_left visit days a)) /\
  (List.length (currentWeek (fold_left visit days a)) < 7)%nat.
Proof.
  induction days as [|d t IH]; intros prev a Hc Hw Hl; simpl.
  - split; [assumption|]. pose proof (WeekDay_range (prev + 1)). lia.
  - simpl in Hc. destruct (dateOf d) as [u|] eqn:Hu; [|discriminate].
    apply andb_prop in Hc. destruct Hc as [Hp Hc].
    apply Z.eqb_eq in Hp.
    apply (IH (MakeDay u)); [assumption| |].
    + rewrite visit_weeks, Hu. simpl.
      destruct (Z.eqb_spec (WeekDay (MakeDay u)) 6) as [E|E]; [|assumption].
      apply Forall_app. split; [assumption|].
      constructor; [|constructor].
      unfold seven. rewrite List.length_app. simpl. rewrite Hp in E. lia.
    + rewrite visit_currentWeek, Hu. simpl. rewrite WeekDay_succ.
      destruct (Z.eqb_spec (WeekDay (MakeDay u)) 6) as [E|E]; [reflexivity|].
      rewrite List.length_app. simpl. rewrite Hp. lia.
Qed.

Lemma finish_weeks a :
  weeks (finish a) =
  match currentWeek a with
  | [] => weeks a
  | cw => weeks a ++ [cw ++ repeat sentinel (7 - List.length cw)%nat]
  end.
Proof. unfold finish. destruct (currentWeek a); reflexivity. Qed.

Lemma dropSentinels_app l1 l2 :
  dropSentinels (l1 ++ l2) = dropSentinels l1 ++ dropSentinels l2.
Proof. apply filter_app. Qed.

Lemma dropSentinels_repeat n : dropSentinels (repeat sentinel n) = [].
Proof. induction n; simpl; auto. Qed.

Lemma parse_empty : parse EmptyString = None.
Proof. reflexivity. Qed.

Lemma chain_no_sentinel days : forall prev,
  chain prev days = true -> dropSentinels days = days.
Proof.
  induction days as [|d t IH]; intros prev Hc; simpl; [reflexivity|].
  simpl in Hc. destruct (dateOf d) as [u|] eqn:Hu; [|discriminate].
  apply andb_prop in Hc. destruct Hc as [_ Hc].
  unfold isSentinel. destruct (String.eqb_spec (date d) EmptyString) as [E|E].
  - unfold dateOf in Hu. rewrite E in Hu. discriminate.
  - simpl. f_equal. exact (IH _ Hc).
Qed.

Lemma contiguous_chain d t u :
  contiguous (d :: t) = true -> dateOf d = Some u ->
  chain (MakeDay u - 1) (d :: t) = true.
Proof.
  simpl. intros H Hu. rewrite Hu in *.
  replace (MakeDay u - 1 + 1) with (MakeDay u) by lia.
  now rewrite Z.eqb_refl.
Qed.

(** C1. For a non-empty, chronological, calendar-contiguous feed, every week
    of the layout has exactly 7 entries, and the weeks concatenated in order,
    with the sentinel padding (date = '', requests = -1) removed, are the
    input days in order. *)
Theorem layout_weeks_reproduce_input (days : list ActivityHeatmapDay) :
  days <> [] ->
  contiguous days = true ->
  Forall (fun w => List.length w = 7%nat) (fst (layout days)) /\
  dropSentinels (List.concat (fst (layout days))) = days.
Proof.
  intros Hne Hc. destruct days as [|d0 t]; [congruence|]. clear Hne.
  pose proof Hc as Hc0. simpl in Hc0.
  destruct (dateOf d0) as [u|] eqn:Hu; [|discriminate].
  pose proof (contiguous_chain _ _ _ Hc Hu) as Hch.
  set (a0 := mkAcc [] [] (leadingPad (Some (WeekDay (MakeDay u)))) (Some (-1))).
  assert (Hlay : fst (layout (d0 :: t)) = weeks (finish (fold_left visit (d0 :: t) a0))).
  { unfold layout, layoutAcc. cbv zeta. rewrite Hu. reflexivity. }
  rewrite Hlay. clear Hlay.
  destruct (fold_visit_seven (d0 :: t) (MakeDay u - 1) a0 Hch) as [H7 Hlt].
  { constructor. }
  { simpl. rewrite repeat_length.
    replace (MakeDay u - 1 + 1) with (MakeDay u) by lia.
    pose proof (WeekDay_range (MakeDay u)). lia. }
  pose proof (fold_visit_flat (d0 :: t) a0) as Hflat.
  set (a := fold_left visit (d0 :: t) a0) in *.
  rewrite finish_weeks. unfold flat in Hflat.
  assert (Hds : dropSentinels (List.concat (weeks a) ++ currentWeek a) = d0 :: t).
  { rewrite Hflat. simpl List.concat. simpl app at 1.
    rewrite dropSentinels_app. simpl leadingPad.
    rewrite dropSentinels_repeat. simpl app.
    exact (chain_no_sentinel _ _ Hch). }
  destruct (currentWeek a) as [|c cw] eqn:Hcw.
  - split; [exact H7|]. rewrite app_nil_r in Hds. exact Hds.
  - split.
    + apply Forall_app. split; [exact H7|]. constructor; [|constructor].
      rewrite List.length_app, repeat_length. lia.
    + rewrite concat_app, concat_cons, concat_nil, app_nil_r, app_assoc.
      rewrite dropSentinels_app, dropSentinels_repeat, app_nil_r. exact Hds.
Qed.

Lemma layout_weeks_reproduce_input_witness :
  let days := [mkDay "2024-01-31" 3 10; mkDay "2024-02-01" 0 0;
               mkDay "2024-02-02" 7 70; mkDay "2024-02-03" 1 5;
               mkDay "2024-02-04" 2 9] in
  Forall (fun w => List.length w = 7%nat) (fst (layout days)) /\
  dropSentinels (List.concat (fst (layout days))) = days.
Proof.
  apply layout_weeks_reproduce_input; [discriminate | reflexivity].
Defined.

(** ** Calendar successor *)

Lemma DayFromYear_succ y :
  DayFromYear (y + 1) = DayFromYear y + (if InLeapYear y then 366 else 365).
Proof.
  unfold DayFromYear, InLeapYear.
  destruct (Z.eqb_spec (y mod 4) 0), (Z.eqb_spec (y mod 100) 0),
    (Z.eqb_spec (y mod 400) 0); cbn [andb orb negb];
    Z.div_mod_to_equations; lia.
Qed.

Lemma DayFromYear_mono a b : a <= b -> DayFromYear a <= DayFromYear b.
Proof. unfold DayFromYear. intros H. Z.div_mod_to_equations. lia. Qed.

Ltac month_cases m :=
  let H := fresh "Hm" in
  assert (H : m = 0 \/ m = 1 \/ m = 2 \/ m = 3 \/ m = 4 \/ m = 5 \/ m = 6 \/
              m = 7 \/ m = 8 \/ m = 9 \/ m = 10 \/ m = 11 \/ m = 12) by lia;
  repeat (destruct H as [H|H]; [subst m|]); [..|subst m].

Lemma MonthStart_succ l m :
  0 <= m <= 11 -> MonthStart l (m + 1) = MonthStart l m + DaysInMonth l m.
Proof. intros H. month_cases m; destruct l; simpl; lia. Qed.

Lemma MonthStart_mono l a b :
  0 <= a -> a <= b -> b <= 12 -> MonthStart l a <= MonthStart l b.
Proof.
  intros H0 H1 H2. month_cases a; month_cases b; destruct l; simpl; lia.
Qed.

Lemma MonthStart_0 l : MonthStart l 0 = 0.
Proof. reflexivity. Qed.

Lemma MonthStart_12 l : MonthStart l 12 = if l then 366 else 365.
Proof. destruct l; reflexivity. Qed.

Lemma MonthStart_pos l m : 1 <= m <= 12 -> 31 <= MonthStart l m.
Proof. intros H. apply (MonthStart_mono l 1 m); lia. Qed.

Lemma DaysInMonth_bounds l m : 0 <= m <= 11 -> 28 <= DaysInMonth l m <= 31.
Proof. intros H. month_cases m; destruct l; simpl; lia. Qed.

Lemma valid_fields u :
  valid u = true ->
  0 <= month u <= 11 /\
  1 <= mday u <= DaysInMonth (InLeapYear (year u)) (month u).
Proof.
  unfold valid. intros H.
  repeat (apply andb_prop in H; destruct H as [H ?]).
  lia.
Qed.

Definition yearMonth (u : UTCDate) : Z * Z := (year u, month u).

(** Chronological order of calendar months, as (year, month) pairs. *)
Definition ym_lt (a b : Z * Z) : Prop :=
  fst a < fst b \/ (fst a = fst b /\ snd a < snd b).

(** The day after a calendar day is the next day of the same month, or the
    first day of a later month, reached from the last day of the month. *)
Lemma next_day p d :
  valid p = true -> valid d = true -> MakeDay d = MakeDay p + 1 ->
  (yearMonth d = yearMonth p /\ mday d = mday p + 1) \/
  (month d <> month p /\ ym_lt (yearMonth p) (yearMonth d) /\ mday d = 1 /\
   mday p = DaysInMonth (InLeapYear (year p)) (month p)).
Proof.
  intros Vp Vd. unfold MakeDay, yearMonth, ym_lt. simpl.
  destruct (valid_fields _ Vp) as [Hmp Hdp].
  destruct (valid_fields _ Vd) as [Hmd Hdd].
  destruct p as [yp mp dp], d as [yd md dd]. simpl in *.
  set (lp := InLeapYear yp) in *. set (ld := InLeapYear yd) in *.
  pose proof (MonthStart_succ lp mp Hmp) as Sp.
  pose proof (MonthStart_succ ld md Hmd) as Sd.
  pose proof (MonthStart_mono lp 0 mp) as Zp.
  pose proof (MonthStart_mono ld 0 md) as Zd.
  pose proof (MonthStart_mono lp (mp + 1) 12) as Ep.
  pose proof (MonthStart_mono ld (md + 1) 12) as Ed.
  rewrite MonthStart_0 in Zp, Zd. rewrite MonthStart_12 in Ep, Ed.
  pose proof (DayFromYear_succ yp) as Yp. fold lp in Yp.
  pose proof (DayFromYear_succ yd) as Yd. fold ld in Yd.
  pose proof (DaysInMonth_bounds lp mp Hmp) as Bp.
  intros E.
  destruct (Z.lt_trichotomy yd yp) as [Hy|[Hy|Hy]].
  - exfalso. pose proof (DayFromYear_mono (yd + 1) yp).
    destruct ld; lia.
  - subst yd. subst ld. fold lp in Sd, Zd, Ed, Hdd, E |- *.
    destruct (Z.lt_trichotomy md mp) as [Hm|[Hm|Hm]].
    + exfalso. pose proof (MonthStart_mono lp (md + 1) mp). lia.
    + subst md. left. split; [reflexivity|lia].
    + right. pose proof (MonthStart_mono lp (mp + 1) md).
      repeat split; try lia.
  - right. pose proof (DayFromYear_mono (yp + 1) yd).
    assert (md = 0).
    { destruct (Z.eq_dec md 0); [assumption|].
      pose proof (MonthStart_pos ld md). destruct lp; lia. }
    subst md. rewrite MonthStart_0 in *.
    assert (mp <> 0).
    { intros ->. rewrite MonthStart_0 in *. simpl in Hdp. destruct lp; lia. }
    repeat split; try lia; destruct lp; lia.
Qed.

Lemma checked_valid y m d u : checked y m d = Some u -> valid u = true.
Proof.
  unfold checked. destruct (valid _) eqn:E; [|discriminate].
  intros [= <-]. exact E.
Qed.

Lemma parse_valid s u : parse s = Some u -> valid u = true.
Proof.
  unfold parse. intros H.
  repeat match type of H with
         | checked _ _ _ = Some _ => exact (checked_valid _ _ _ _ H)
         | context [match ?x with _ => _ end] => destruct x; try discriminate
         | context [if ?x then _ else _] => destruct x; try discriminate
         end.
Qed.

(** ** Month labels *)

Definition cols (a : Acc) : list Z := map colStart (monthLabels a).
Definition doneWeeks (a : Acc) : Z := Z.of_nat (List.length (weeks a)).

Definition monthName (ym : Z * Z) : option string := MONTHS_at (Some (snd ym)).

Definition ym_eqb (a b : Z * Z) : bool :=
  (fst a =? fst b) && (snd a =? snd b).

(** The (year, month) of every well-formed day of the feed, in feed order. *)
Definition monthsOf (days : list ActivityHeatmapDay) : list (Z * Z) :=
  flat_map (fun d => match dateOf d with
                     | Some u => [yearMonth u]
                     | None => []
                     end) days.

(** The months at which the calendar month changes, after month [prev]. *)
Fixpoint runs (prev : Z * Z) (l : list (Z * Z)) : list (Z * Z) :=
  match l with
  | [] => []
  | x :: t => if ym_eqb prev x then runs x t else x :: runs x t
  end.

Lemma ym_eqb_eq a b : ym_eqb a b = true <-> a = b.
Proof.
  destruct a, b. unfold ym_eqb. simpl.
  rewrite andb_true_iff, !Z.eqb_eq. split; [intros []|intros [=]]; subst; auto.
Qed.

Lemma ym_lt_trans a b c : ym_lt a b -> ym_lt b c -> ym_lt a c.
Proof. unfold ym_lt. lia. Qed.

Lemma ym_lt_irrefl a : ~ ym_lt a a.
Proof. unfold ym_lt. lia. Qed.

Lemma visit_monthLabels a d :
  monthLabels (visit a d) =
  if strict_neq (getUTCMonth (dateOf d)) (currentMonth a)
  then monthLabels a ++ [mkLabel (MONTHS_at (getUTCMonth (dateOf d))) (doneWeeks a)]
  else monthLabels a.
Proof.
  unfold visit. destruct (strict_neq _ _), (strict_eqZ _ _); reflexivity.
Qed.

Lemma visit_currentMonth a d :
  currentMonth (visit a d) =
  if strict_neq (getUTCMonth (dateOf d)) (currentMonth a)
  then getUTCMonth (dateOf d) else currentMonth a.
Proof.
  unfold visit. destruct (strict_neq _ _), (strict_eqZ _ _); reflexivity.
Qed.

Lemma visit_doneWeeks a d :
  doneWeeks (visit a d) =
  if strict_eqZ (getUTCDay (dateOf d)) 6 then doneWeeks a + 1 else doneWeeks a.
Proof.
  unfold doneWeeks. rewrite visit_weeks.
  destruct (strict_eqZ _ _); [|reflexivity].
  rewrite List.length_app. simpl. lia.
Qed.

Lemma finish_monthLabels a : monthLabels (finish a) = monthLabels a.
Proof. unfold finish. destruct (currentWeek a); reflexivity. Qed.

Lemma StronglySorted_snoc {A} (R : A -> A -> Prop) l x :
  StronglySorted R l -> Forall (fun y => R y x) l -> StronglySorted R (l ++ [x]).
Proof.
  induction 1 as [|y l Hs IH Hy]; intros Hx; simpl.
  - repeat constructor.
  - inversion Hx; subst. constructor; [auto|].
    apply Forall_app. split; [assumption|]. repeat constructor. assumption.
Qed.

(** *** The label months are the month changes of the feed *)

Lemma fold_visit_label_months days : forall p a,
  valid p = true ->
  chain (MakeDay p) days = true ->
  currentMonth a = Some (month p) ->
  map lmonth (monthLabels (fold_left visit days a)) =
  map lmonth (monthLabels a) ++ map monthName (runs (yearMonth p) (monthsOf days)).
Proof.
  induction days as [|d t IH]; intros p a Vp Hc Hm; simpl.
  - now rewrite app_nil_r.
  - simpl in Hc. destruct (dateOf d) as [u|] eqn:Hu; [|discriminate].
    apply andb_prop in Hc. destruct Hc as [Hp Hc]. apply Z.eqb_eq in Hp.
    pose proof (parse_valid _ _ Hu) as Vu.
    assert (Hcm : currentMonth (visit a d) = Some (month u)).
    { rewrite visit_currentMonth, Hu, Hm. simpl.
      destruct (Z.eqb_spec (month u) (month p)) as [E|E]; simpl; congruence. }
    rewrite (IH u (visit a d) Vu Hc Hcm).
    rewrite visit_monthLabels, Hu, Hm. simpl.
    destruct (next_day p u Vp Vu Hp) as [[E _]|[Hne _]].
    + assert (Em : month u = month p) by (unfold yearMonth in E; congruence).
      rewrite Em, Z.eqb_refl. simpl.
      replace (ym_eqb (yearMonth p) (yearMonth u)) with true
        by (symmetry; apply ym_eqb_eq; congruence).
      reflexivity.
    + apply Z.eqb_neq in Hne. rewrite Hne. simpl.
      replace (ym_eqb (yearMonth p) (yearMonth u)) with false.
      * rewrite map_app, <- app_assoc. reflexivity.
      * symmetry. apply not_true_iff_false. rewrite ym_eqb_eq.
        apply Z.eqb_neq in Hne. unfold yearMonth. congruence.
Qed.

Lemma chain_runs days : forall p,
  valid p = true ->
  chain (MakeDay p) days = true ->
  StronglySorted ym_lt (runs (yearMonth p) (monthsOf days)) /\
  Forall (ym_lt (yearMonth p)) (runs (yearMonth p) (monthsOf days)) /\
  (forall x, In x (runs (yearMonth p) (monthsOf days)) -> In x (monthsOf days)) /\
  (forall x, In x (monthsOf days) ->
             x = yearMonth p \/ In x (runs (yearMonth p) (monthsOf days))).
Proof.
  induction days as [|d t IH]; intros p Vp Hc.
  - simpl. split; [constructor|]. split; [constructor|].
    split; intros x [].
  - simpl in Hc. destruct (dateOf d) as [u|] eqn:Hu; [|discriminate].
    apply andb_prop in Hc. destruct Hc as [Hp Hc]. apply Z.eqb_eq in Hp.
    pose proof (parse_valid _ _ Hu) as Vu.
    destruct (IH u Vu Hc) as (Hs & Hf & Hin & Hout).
    assert (Hmo : monthsOf (d :: t) = yearMonth u :: monthsOf t)
      by (unfold monthsOf; simpl; rewrite Hu; reflexivity).
    rewrite Hmo. simpl runs.
    destruct (next_day p u Vp Vu Hp) as [[E _]|(Hne & Hlt & _)].
    + replace (ym_eqb (yearMonth p) (yearMonth u)) with true
        by (symmetry; apply ym_eqb_eq; congruence).
      rewrite <- E. repeat split; auto.
      * intros x Hx. right. auto.
      * intros x [Hx|Hx]; [left; congruence|auto].
    + replace (ym_eqb (yearMonth p) (yearMonth u)) with false.
      2:{ symmetry. apply not_true_iff_false. rewrite ym_eqb_eq.
          unfold yearMonth. congruence. }
      repeat split.
      * constructor; assumption.
      * constructor; [assumption|].
        eapply Forall_impl; [|exact Hf]. intros x. apply ym_lt_trans, Hlt.
      * intros x [Hx|Hx]; [left; assumption|right; auto].
      * intros x [Hx|Hx]; [right; left; assumption|].
        destruct (Hout x Hx) as [->|H']; right; [left; reflexivity|right; assumption].
Qed.

(** *** The label columns *)

(** Every day of [p]'s month so far lies in the week still being filled. *)
Definition sameWeek (p : UTCDate) : Prop :=
  mday p <= WeekDay (MakeDay p) + 1 /\ WeekDay (MakeDay p) <> 6.

(** What holds of the accumulator after the day [p] has been visited. *)
Record ColInv (a : Acc) (p : UTCDate) : Prop := mkColInv {
  ci_month : currentMonth a = Some (month p);
  ci_ne : cols a <> [];
  ci_le : StronglySorted Z.le (cols a);
  ci_lt : StronglySorted Z.lt (tl (cols a));
  ci_bound : Forall (fun c => c <= doneWeeks a) (cols a);
  ci_fresh : List.length (cols a) = 1%nat \/
             Forall (fun c => c < doneWeeks a) (cols a) \/
             sameWeek p
}.

Lemma visit_cols a d :
  cols (visit a d) =
  if strict_neq (getUTCMonth (dateOf d)) (currentMonth a)
  then cols a ++ [doneWeeks a] else cols a.
Proof.
  unfold cols. rewrite visit_monthLabels.
  destruct (strict_neq _ _); [|reflexivity].
  rewrite map_app. reflexivity.
Qed.

Lemma Forall_tl {A} (P : A -> Prop) l : Forall P l -> Forall P (tl l).
Proof. destruct 1; simpl; auto. Qed.

Lemma tl_snoc {A} (l : list A) x : l <> [] -> tl (l ++ [x]) = tl l ++ [x].
Proof. destruct l; [congruence|reflexivity]. Qed.

Lemma visit_ColInv a p d u :
  ColInv a p -> valid p = true ->
  dateOf d = Some u -> MakeDay u = MakeDay p + 1 ->
  ColInv (visit a d) u.
Proof.
  intros [Hm Hne Hle Hlt Hb Hf] Vp Hu Hp.
  pose proof (parse_valid _ _ Hu) as Vu.
  pose proof (visit_cols a d) as Ec.
  pose proof (visit_doneWeeks a d) as Ew.
  pose proof (visit_currentMonth a d) as Em.
  rewrite Hu, Hm in Ec, Em. rewrite Hu in Ew. simpl in Ec, Ew, Em.
  pose proof (WeekDay_succ (MakeDay p)) as Hwd. rewrite <- Hp in Hwd.
  assert (Hb1 : Forall (fun c => c < doneWeeks a + 1) (cols a)).
  { eapply Forall_impl; [|exact Hb]. simpl. intros; lia. }
  destruct (next_day p u Vp Vu Hp) as [[E Hd]|(Hdiff & _ & Hd1 & Hlast)].
  - assert (E' : month u = month p) by (unfold yearMonth in E; congruence).
    rewrite E', Z.eqb_refl in Ec, Em. simpl in Ec, Em.
    constructor; rewrite ?Ec, ?Ew; try assumption.
    + congruence.
    + eapply Forall_impl; [|exact Hb]. simpl.
      intros c Hc. destruct (_ =? 6); lia.
    + destruct (Z.eqb_spec (WeekDay (MakeDay u)) 6) as [E6|E6].
      * right. left. exact Hb1.
      * destruct Hf as [H1|[Hlt'|[Hs1 Hs2]]]; [left; assumption|right; left; assumption|].
        right. right. split; [|assumption].
        destruct (Z.eqb_spec (WeekDay (MakeDay p)) 6); lia.
  - apply Z.eqb_neq in Hdiff. rewrite Hdiff in Ec, Em. simpl in Ec, Em.
    assert (Htl : Forall (fun c => c < doneWeeks a) (tl (cols a))).
    { destruct Hf as [H1|[Hlt'|[Hs1 Hs2]]].
      - destruct (cols a) as [|c [|c' l]]; simpl in *; try discriminate; constructor.
      - apply Forall_tl. exact Hlt'.
      - exfalso.
        destruct (valid_fields _ Vp) as [Hmp _].
        pose proof (DaysInMonth_bounds (InLeapYear (year p)) (month p) Hmp).
        pose proof (WeekDay_range (MakeDay p)). lia. }
    constructor; rewrite ?Ec, ?Ew; try assumption.
    + intros H. apply app_eq_nil in H. destruct H. discriminate.
    + apply StronglySorted_snoc; assumption.
    + rewrite tl_snoc by assumption. apply StronglySorted_snoc; assumption.
    + apply Forall_app. split.
      * eapply Forall_impl; [|exact Hb]. simpl.
        intros c Hc. destruct (_ =? 6); lia.
      * constructor; [|constructor]. destruct (_ =? 6); lia.
    + destruct (Z.eqb_spec (WeekDay (MakeDay u)) 6) as [E6|E6].
      * right. left. apply Forall_app. split; [exact Hb1|].
        constructor; [lia|constructor].
      * right. right. split; [|assumption].
        pose proof (WeekDay_range (MakeDay u)). lia.
Qed.

Lemma fold_visit_ColInv days : forall p a,
  ColInv a p -> valid p = true -> chain (MakeDay p) days = true ->
  StronglySorted Z.le (cols (fold_left visit days a)) /\
  StronglySorted Z.lt (tl (cols (fold_left visit days a))).
Proof.
  induction days as [|d t IH]; intros p a HI Vp Hc; simpl.
  - split; [apply (ci_le _ _ HI)|apply (ci_lt _ _ HI)].
  - simpl in Hc. destruct (dateOf d) as [u|] eqn:Hu; [|discriminate].
    apply andb_prop in Hc. destruct Hc as [Hp Hc]. apply Z.eqb_eq in Hp.
    apply (IH u); [|exact (parse_valid _ _ Hu)|exact Hc].
    exact (visit_ColInv a p d u HI Vp Hu Hp).
Qed.

(** The first day always opens a label, in column 0. *)
Lemma first_visit_ColInv d u pad :
  dateOf d = Some u ->
  ColInv (visit (mkAcc [] [] pad (Some (-1))) d) u /\
  monthLabels (visit (mkAcc [] [] pad (Some (-1))) d)
  = [mkLabel (MONTHS_at (Some (month u))) 0].
Proof.
  intros Hu. pose proof (parse_valid _ _ Hu) as Vu.
  destruct (valid_fields _ Vu) as [Hm _].
  set (a0 := mkAcc [] [] pad (Some (-1))).
  pose proof (visit_monthLabels a0 d) as El.
  pose proof (visit_doneWeeks a0 d) as Ew.
  pose proof (visit_currentMonth a0 d) as Em.
  rewrite Hu in El, Ew, Em. simpl in El, Ew, Em.
  assert (Hneq : (month u =? -1) = false) by (apply Z.eqb_neq; lia).
  rewrite Hneq in El, Em. simpl in El, Em.
  split; [|exact El].
  constructor; unfold cols; rewrite ?El, ?Ew; simpl.
  - exact Em.
  - discriminate.
  - repeat constructor.
  - constructor.
  - repeat constructor. unfold doneWeeks. simpl. destruct (_ =? 6); lia.
  - left. reflexivity.
Qed.

Lemma map_tl {A B} (f : A -> B) l : map f (tl l) = tl (map f l).
Proof. destruct l; reflexivity. Qed.

Lemma layout_labels_unfold d0 t u :
  dateOf d0 = Some u ->
  snd (layout (d0 :: t)) =
  monthLabels
    (fold_left visit t
       (visit (mkAcc [] [] (leadingPad (getUTCDay (Some u))) (Some (-1))) d0)).
Proof.
  intros Hu. unfold layout, layoutAcc. cbv zeta. rewrite Hu.
  simpl snd. rewrite finish_monthLabels. reflexivity.
Qed.

(** C2, as the code has it.  For a non-empty, chronological,
    calendar-contiguous feed the label columns never decrease and, from the
    second label on, strictly increase; and there is exactly one label per
    distinct calendar month (year and month) of the feed, in chronological
    order, each carrying that month's name. *)
Theorem monthLabels_one_per_month (days : list ActivityHeatmapDay) :
  days <> [] ->
  contiguous days = true ->
  StronglySorted Z.le (map colStart (snd (layout days))) /\
  StronglySorted Z.lt (map colStart (tl (snd (layout days)))) /\
  exists yms : list (Z * Z),
    StronglySorted ym_lt yms /\
    (forall ym, In ym yms <-> In ym (monthsOf days)) /\
    map lmonth (snd (layout days)) = map monthName yms.
Proof.
  intros Hne Hc. destruct days as [|d0 t]; [congruence|]. clear Hne.
  simpl in Hc. destruct (dateOf d0) as [u|] eqn:Hu; [|discriminate].
  pose proof (parse_valid _ _ Hu) as Vu.
  rewrite (layout_labels_unfold d0 t u Hu).
  set (a1 := visit _ d0).
  destruct (first_visit_ColInv d0 u (leadingPad (getUTCDay (Some u))) Hu)
    as [HI Hl1].
  fold a1 in HI, Hl1.
  destruct (fold_visit_ColInv t u a1 HI Vu Hc) as [Hle Hlt].
  split; [exact Hle|]. split; [rewrite map_tl; exact Hlt|].
  exists (yearMonth u :: runs (yearMonth u) (monthsOf t)).
  destruct (chain_runs t u Vu Hc) as (Hs & Hf & Hin & Hout).
  assert (Hmo : monthsOf (d0 :: t) = yearMonth u :: monthsOf t)
    by (unfold monthsOf; simpl; rewrite Hu; reflexivity).
  split; [constructor; assumption|]. split.
  - intros ym. rewrite Hmo. simpl. split.
    + intros [H|H]; [left; assumption|right; auto].
    + intros [H|H]; [left; assumption|].
      destruct (Hout ym H) as [->|H']; [left; reflexivity|right; assumption].
  - rewrite (fold_visit_label_months t u a1 Vu Hc (ci_month _ _ HI)).
    rewrite Hl1. reflexivity.
Qed.

Lemma monthLabels_one_per_month_witness :
  let days := [mkDay "2023-12-30" 4 40; mkDay "2023-12-31" 0 0;
               mkDay "2024-01-01" 9 90; mkDay "2024-01-02" 1 5] in
  StronglySorted Z.le (map colStart (snd (layout days))) /\
  StronglySorted Z.lt (map colStart (tl (snd (layout days)))) /\
  exists yms : list (Z * Z),
    StronglySorted ym_lt yms /\
    (forall ym, In ym yms <-> In ym (monthsOf days)) /\
    map lmonth (snd (layout days)) = map monthName yms.
Proof.
  apply monthLabels_one_per_month; [discriminate | reflexivity].
Defined.

(** C2 as stated fails: a feed that starts on Wednesday 2024-01-31 gets its
    January and February labels in the same column 0, so the columns are not
    strictly increasing.  And without contiguity a chronological feed can
    pass from one January to the next with a single label for both. *)
Lemma monthLabels_not_strictly_increasing :
  let days := [mkDay "2024-01-31" 3 10; mkDay "2024-02-01" 5 20] in
  let gap := [mkDay "2024-01-15" 1 1; mkDay "2025-01-15" 2 2] in
  (days <> [] /\ contiguous days = true /\
   snd (layout days) = [mkLabel (Some "1月"%string) 0; mkLabel (Some "2月"%string) 0] /\
   ~ StronglySorted Z.lt (map colStart (snd (layout days)))) /\
  (monthsOf gap = [(2024, 0); (2025, 0)] /\
   snd (layout gap) = [mkLabel (Some "1月"%string) 0]).
Proof.
  cbv zeta. split; [|split; reflexivity].
  split; [discriminate|]. split; [reflexivity|].
  split; [reflexivity|].
  intros H. change (StronglySorted Z.lt [0; 0]) in H.
  inversion H as [|? ? _ HF]; subst.
  inversion HF as [|? ? Hlt _]; subst. lia.
Qed.

(** ** Responsive truncation *)

(** [floor((width - gutter + gap) / (cellSize + gap))] clamped to [1, total]. *)
Definition clampedFit (width total : Z) : Z :=
  Z.min (Z.max ((width - 20 + 3) / (11 + 3)) 1) total.

Lemma updateVisibleWeeks_positive width total :
  0 < width -> 0 < total ->
  updateVisibleWeeks width total = clampedFit width total /\
  1 <= updateVisibleWeeks width total <= total.
Proof.
  intros Hw Ht. unfold updateVisibleWeeks, clampedFit.
  replace (width <=? 0) with false by (symmetry; apply Z.leb_gt; lia).
  replace (total =? 0) with false by (symmetry; apply Z.eqb_neq; lia).
  cbn [orb]. cbv zeta.
  unfold WEEKDAY_LABEL_WIDTH, CELL_GAP, CELL_SIZE.
  set (q := (width - 20 + 3) / (11 + 3)). split; [reflexivity|lia].
Qed.

(** For a container without width the guard keeps every week. *)
Lemma updateVisibleWeeks_no_width width total :
  width <= 0 -> updateVisibleWeeks width total = total.
Proof.
  intros Hw. unfold updateVisibleWeeks.
  replace (width <=? 0) with true by (symmetry; apply Z.leb_le; lia).
  reflexivity.
Qed.

Lemma visibleWeeks_trailing {A} (ws : list A) n :
  1 <= n <= Z.of_nat (List.length ws) ->
  visibleWeeks ws n = skipn (Z.to_nat (Z.of_nat (List.length ws) - n)) ws.
Proof.
  intros Hn. unfold visibleWeeks.
  destruct (Z.geb_spec n (Z.of_nat (List.length ws))) as [H|H]; simpl.
  - replace (Z.of_nat (List.length ws) - n) with 0 by lia. reflexivity.
  - replace (n =? 0) with false by (symmetry; apply Z.eqb_neq; lia).
    reflexivity.
Qed.

Definition rebase (first : Z) (label : MonthLabel) : MonthLabel :=
  mkLabel (lmonth label) (colStart label - first).

Lemma visibleMonthLabels_window labels total n :
  1 <= n <= total ->
  Forall (fun l => 0 <= colStart l) labels ->
  visibleMonthLabels labels total n =
  map (rebase (total - n)) (filter (fun l => total - n <=? colStart l) labels).
Proof.
  intros Hn Hpos. unfold visibleMonthLabels.
  destruct (Z.geb_spec n total) as [H|H]; simpl.
  - assert (E : total - n = 0) by lia. rewrite E. clear Hn H E.
    induction Hpos as [|l t Hl _ IH]; [reflexivity|].
    simpl. replace (0 <=? colStart l) with true by (symmetry; apply Z.leb_le; lia).
    simpl. rewrite <- IH. f_equal. destruct l as [m c]. unfold rebase. simpl.
    f_equal. lia.
  - replace (n =? 0) with false by (symmetry; apply Z.eqb_neq; lia).
    f_equal. apply filter_ext. intros l. rewrite Z.geb_leb. reflexivity.
Qed.

(** C3, as the code has it.  For a container of positive width and a
    non-empty layout, the visible-week count is
    floor((width - 20 + 3) / (11 + 3)) clamped to [1, totalWeeks]; the visible
    weeks are the trailing that-many weeks; and the visible labels are those
    whose column is at least the first visible column, re-based by it (earlier
    labels are dropped, none is moved to column 0). *)
Theorem visible_window (width : Z) (ws : list (list ActivityHeatmapDay))
    (labels : list MonthLabel) :
  0 < width ->
  ws <> [] ->
  Forall (fun l => 0 <= colStart l) labels ->
  let total := Z.of_nat (List.length ws) in
  let n := updateVisibleWeeks width total in
  let first := total - n in
  n = clampedFit width total /\
  1 <= n <= total /\
  (exists older, ws = older ++ visibleWeeks ws n /\
                 Z.of_nat (List.length older) = first /\
                 Z.of_nat (List.length (visibleWeeks ws n)) = n) /\
  visibleMonthLabels labels total n =
    map (rebase first) (filter (fun l => first <=? colStart l) labels) /\
  Forall (fun l => 0 <= colStart l) (visibleMonthLabels labels total n).
Proof.
  intros Hw Hne Hpos total n first.
  assert (Ht : 0 < total).
  { unfold total. destruct ws; [congruence|simpl; lia]. }
  destruct (updateVisibleWeeks_positive width total Hw Ht) as [Hfit Hrange].
  fold n in Hfit, Hrange.
  pose proof (visibleMonthLabels_window labels total n Hrange Hpos) as Hlab.
  split; [exact Hfit|]. split; [exact Hrange|]. split; [|split; [exact Hlab|]].
  - exists (firstn (Z.to_nat first) ws).
    rewrite (visibleWeeks_trailing ws n Hrange). fold total. fold first.
    split; [symmetry; apply firstn_skipn|].
    rewrite length_firstn, length_skipn. unfold first, total in *. lia.
  - rewrite Hlab. apply Forall_forall. intros l Hin.
    apply in_map_iff in Hin. destruct Hin as (l0 & <- & Hin0).
    apply filter_In in Hin0. destruct Hin0 as [_ Hge].
    apply Z.leb_le in Hge. unfold rebase. simpl. lia.
Qed.

(** Ten weeks in an 80-pixel container: four weeks fit, the last four are
    shown, and the labels of columns below 6 are gone. *)
Lemma visible_window_witness :
  let w (k : Z) := repeat (mkDay "pad" k 0) 7 in
  let ws := map w [0; 1; 2; 3; 4; 5; 6; 7; 8; 9] in
  let labels := [mkLabel (Some "3月"%string) 0; mkLabel (Some "4月"%string) 4;
                 mkLabel (Some "5月"%string) 8] in
  updateVisibleWeeks 80 10 = 4 /\
  visibleWeeks ws 4 = map w [6; 7; 8; 9] /\
  visibleMonthLabels labels 10 4 = [mkLabel (Some "5月"%string) 2] /\
  Forall (fun l => 0 <= colStart l) (visibleMonthLabels labels 10 4).
Proof.
  cbv zeta.
  split; [reflexivity|]. split; [reflexivity|]. split; [reflexivity|].
  refine (proj2 (proj2 (proj2 (proj2
    (visible_window 80
       (map (fun k => repeat (mkDay "pad" k 0) 7) [0; 1; 2; 3; 4; 5; 6; 7; 8; 9])
       [mkLabel (Some "3月"%string) 0; mkLabel (Some "4月"%string) 4;
        mkLabel (Some "5月"%string) 8] _ _ _))))).
  - lia.
  - discriminate.
  - repeat constructor; simpl; lia.
Defined.

(** C3 as stated fails for a container without width: the guard
    [width <= 0] shows all ten weeks, where the clamped formula gives one. *)
Lemma visible_count_zero_width :
  updateVisibleWeeks 0 10 = 10 /\ clampedFit 0 10 = 1 /\
  updateVisibleWeeks 0 10 <> clampedFit 0 10.
Proof. repeat split. discriminate. Qed.

(** ** Intensity levels *)

Lemma getIntensityLevel_pos r m :
  0 < r -> 0 < m ->
  getIntensityLevel r m =
  if 4 * r <=? m then 1
  else if 2 * r <=? m then 2
  else if 4 * r <=? 3 * m then 3
  else 4.
Proof.
  intros Hr Hm. unfold getIntensityLevel.
  replace (r =? 0) with false by (symmetry; apply Z.eqb_neq; lia).
  replace (m =? 0) with false by (symmetry; apply Z.eqb_neq; lia).
  destruct m as [|pm|pm]; try lia.
  unfold Qle_bool, Qdiv, Qmult, Qinv, inject_Z. simpl Qnum. simpl Qden.
  replace (r * 1 * 4 <=? 1 * Z.pos pm) with (4 * r <=? Z.pos pm)
    by (apply f_equal2; lia).
  replace (r * 1 * 2 <=? 1 * Z.pos pm) with (2 * r <=? Z.pos pm)
    by (apply f_equal2; lia).
  replace (r * 1 * 4 <=? 3 * Z.pos pm) with (4 * r <=? 3 * Z.pos pm)
    by (apply f_equal2; lia).
  reflexivity.
Qed.

Ltac leb_cases :=
  repeat match goal with
         | |- context [?a <=? ?b] => destruct (Z.leb_spec a b)
         end;
  try lia.

(** C4. For non-negative counts, the level is 0 when requests or maxRequests
    is 0, 4 at requests = maxRequests > 0, and 1, 2, 3 at exactly 25%, 50%,
    75% of a positive maxRequests; a cell with negative requests (the
    sentinel) is rendered empty with level 0 whatever the formula gives. *)
Theorem intensity_levels (r m : Z) :
  0 <= r -> 0 <= m ->
  (r = 0 \/ m = 0 -> getIntensityLevel r m = 0) /\
  (0 < m -> r = m -> getIntensityLevel r m = 4) /\
  (0 < m -> 4 * r = m -> getIntensityLevel r m = 1) /\
  (0 < m -> 2 * r = m -> getIntensityLevel r m = 2) /\
  (0 < m -> 4 * r = 3 * m -> getIntensityLevel r m = 3) /\
  (forall day, requests day < 0 -> renderCell day m = mkCell true 0).
Proof.
  intros Hr Hm. repeat split.
  - intros [->| ->]; unfold getIntensityLevel; [reflexivity|].
    destruct (r =? 0); reflexivity.
  - intros H0 ->. rewrite getIntensityLevel_pos by lia.
    leb_cases.
  - intros H0 E. rewrite getIntensityLevel_pos by lia.
    leb_cases.
  - intros H0 E. rewrite getIntensityLevel_pos by lia.
    leb_cases.
  - intros H0 E. rewrite getIntensityLevel_pos by lia.
    leb_cases.
  - intros day Hd. unfold renderCell.
    replace (requests day <? 0) with true by (symmetry; apply Z.ltb_lt; lia).
    replace (requests day >=? 0) with false; [reflexivity|].
    symmetry. rewrite Z.geb_leb. apply Z.leb_gt. lia.
Qed.

Lemma intensity_levels_witness :
  getIntensityLevel 25 100 = 1 /\
  renderCell sentinel 100 = mkCell true 0.
Proof.
  pose proof (intensity_levels 25 100 ltac:(lia) ltac:(lia))
    as (_ & _ & H1 & _ & _ & Hs).
  split; [apply H1; lia | apply Hs; simpl; lia].
Defined.

(* ================================================================== *)
(** ** API-key masking *)

Import RecordsPage.

Lemma substring_prefix p r : substring 0 (String.length p) (p ++ r) = p.
Proof.
  induction p as [|c p IH]; simpl.
  - destruct r; reflexivity.
  - now rewrite IH.
Qed.

Lemma substring_skip p r n :
  substring (String.length p) n (p ++ r) = substring 0 n r.
Proof. induction p as [|c p IH]; simpl; auto. Qed.

Lemma substring_all q : substring 0 (String.length q) q = q.
Proof. induction q as [|c q IH]; simpl; [reflexivity|now rewrite IH]. Qed.

Lemma length_append p r :
  String.length (p ++ r) = (String.length p + String.length r)%nat.
Proof. induction p; simpl; auto. Qed.

Lemma length_repeatString n : String.length (repeatString "*" n) = n.
Proof. induction n; simpl; auto. Qed.

(** A key split into its first four characters, a non-empty middle and its
    last four characters is masked to the two ends around four stars. *)
Lemma maskApiKey_ends p m q :
  String.length p = 4%nat -> String.length q = 4%nat -> m <> EmptyString ->
  maskApiKey (Some (p ++ m ++ q)%string) = (p ++ "****" ++ q)%string.
Proof.
  intros Hp Hq Hm. unfold maskApiKey.
  assert (Hl : String.length (p ++ m ++ q) = (8 + String.length m)%nat)
    by (rewrite !length_append; lia).
  assert (0 < String.length m)%nat by (destruct m; [congruence|simpl; lia]).
  rewrite Hl.
  replace (8 + String.length m =? 0)%nat with false
    by (symmetry; apply Nat.eqb_neq; lia).
  replace (8 + String.length m <=? 8)%nat with false
    by (symmetry; apply Nat.leb_gt; lia).
  f_equal.
  - rewrite <- Hp. apply substring_prefix.
  - f_equal.
    replace (8 + String.length m - 4)%nat
      with (String.length (p ++ m)) by (rewrite length_append; lia).
    replace (p ++ m ++ q)%string with ((p ++ m) ++ q)%string.
    + rewrite substring_skip, <- Hq. apply substring_all.
    + clear. induction p; simpl; [reflexivity|now f_equal].
Qed.

(** C10. Two keys longer than 8 characters with the same first four and the
    same last four characters are masked alike: the mask is the first four,
    four stars, the last four, whatever stands in between.  A non-empty key
    of at most 8 characters becomes that many stars, and a missing or empty
    key becomes a dash. *)
Theorem maskApiKey_hides_middle :
  (forall k1 k2 : string,
     (8 < String.length k1)%nat -> (8 < String.length k2)%nat ->
     substring 0 4 k1 = substring 0 4 k2 ->
     substring (String.length k1 - 4) 4 k1 = substring (String.length k2 - 4) 4 k2 ->
     maskApiKey (Some k1) = maskApiKey (Some k2)) /\
  (forall p m q : string,
     String.length p = 4%nat -> String.length q = 4%nat -> m <> EmptyString ->
     maskApiKey (Some (p ++ m ++ q)%string) = (p ++ "****" ++ q)%string) /\
  (forall k : string,
     (0 < String.length k <= 8)%nat ->
     maskApiKey (Some k) = repeatString "*" (String.length k) /\
     String.length (maskApiKey (Some k)) = String.length k) /\
  maskApiKey None = "-"%string /\
  maskApiKey (Some EmptyString) = "-"%string.
Proof.
  split; [|split; [exact maskApiKey_ends|split; [|split; reflexivity]]].
  - intros k1 k2 H1 H2 Hf Hl. unfold maskApiKey.
    replace (String.length k1 =? 0)%nat with false
      by (symmetry; apply Nat.eqb_neq; lia).
    replace (String.length k2 =? 0)%nat with false
      by (symmetry; apply Nat.eqb_neq; lia).
    replace (String.length k1 <=? 8)%nat with false
      by (symmetry; apply Nat.leb_gt; lia).
    replace (String.length k2 <=? 8)%nat with false
      by (symmetry; apply Nat.leb_gt; lia).
    rewrite Hf, Hl. reflexivity.
  - intros k Hk. unfold maskApiKey.
    replace (String.length k =? 0)%nat with false
      by (symmetry; apply Nat.eqb_neq; lia).
    replace (String.length k <=? 8)%nat with true
      by (symmetry; apply Nat.leb_le; lia).
    split; [reflexivity|apply length_repeatString].
Qed.

Lemma maskApiKey_hides_middle_witness :
  maskApiKey (Some "sk-live-0123456789abcdef"%string) = "sk-l****cdef"%string /\
  maskApiKey (Some "sk-lXYZcdef"%string) = "sk-l****cdef"%string /\
  maskApiKey (Some "sk-test"%string) = "*******"%string.
Proof.
  destruct maskApiKey_hides_middle as (_ & Hends & Hshort & _).
  split; [|split].
  - apply (Hends "sk-l" "ive-0123456789ab" "cdef")%string;
      [reflexivity | reflexivity | discriminate].
  - apply (Hends "sk-l" "XYZ" "cdef")%string;
      [reflexivity | reflexivity | discriminate].
  - apply (Hshort "sk-test"%string). simpl. lia.
Defined.

(* ================================================================== *)
(** ** The records page: loads *)

Section RecordsFacts.
Context {ModelStats ProviderStats UsageSummary RequestTimelineData : Type}.
Variable getDateRangeFromPeriod : PeriodValue -> DateRange.

Abbreviation State := (@PageState ModelStats ProviderStats UsageSummary RequestTimelineData).
Abbreviation Program := (@Async ModelStats ProviderStats UsageSummary RequestTimelineData).
Abbreviation Server := (@Backend ModelStats ProviderStats UsageSummary RequestTimelineData).
Abbreviation loadRecords' := (loadRecords getDateRangeFromPeriod).
Abbreviation loadAnalytics' := (loadAnalytics getDateRangeFromPeriod).
Abbreviation loadFilterOptions' := (loadFilterOptions getDateRangeFromPeriod).

Lemma run_andThen (b : Server) (p q : Program) : forall st,
  final (run b (andThen p q) st) = final (run b q (final (run b p st))) /\
  calls (run b (andThen p q) st)
    = (calls (run b p st) ++ calls (run b q (final (run b p st))))%list /\
  inFlight (run b (andThen p q) st)
    = (inFlight (run b p st) ++ inFlight (run b q (final (run b p st))))%list.
Proof.
  induction p as [|f k IH|R req k IH|m k IH]; intros st; simpl.
  - auto.
  - apply IH.
  - destruct (IH (b R req) st) as (H1 & H2 & H3). rewrite H1, H2, H3. auto.
  - destruct (IH st) as (H1 & H2 & H3). rewrite H1, H2, H3. auto.
Qed.

Lemma Each_andThen Q (p q : Program) :
  Each Q p -> Each Q q -> Each Q (andThen p q).
Proof.
  induction 1; intros Hq; simpl; try constructor; auto.
Qed.

Lemma run_keeps {A} (g : State -> A) (b : Server) (p : Program) :
  Keeps g p -> forall st, g (final (run b p st)) = g st.
Proof.
  unfold Keeps. induction 1 as [|f k Hf _ IH|R req k _ IH|m k _ IH];
    intros st; simpl; auto.
  rewrite IH. apply Hf.
Qed.


(** The status classes in the words of the specification. *)
Definition classifiedAs (f : StatusValue) (r : UsageRecord) : bool :=
  match f with
  | streaming => is_streaming r && success r
  | standard => negb (is_streaming r) && success r
  | failed =>
      negb (success r) ||
      match status_code r with
      | Some code => 400 <=? code
      | None => false
      end
  | all_status => true
  end.

Lemma statusPredicate_classifiedAs f r : statusPredicate f r = classifiedAs f r.
Proof.
  destruct f; simpl; try reflexivity.
  destruct (status_code r) as [code|]; simpl; [|reflexivity].
  destruct (Z.eqb_spec code 0) as [->|]; simpl; reflexivity.
Qed.

(** C5. After a list fetch under a status filter other than '__all__', the
    records shown are exactly the fetched rows of that class, in order, and
    the stored total is the backend's, whatever the filter removed. *)
Theorem status_filter_after_fetch (b : Server) (c st : State)
    (resetPage isSilent : bool) (result : ListResult) :
  connected c = true ->
  statusFilter c <> all_status ->
  b _ (api_list (listQuery getDateRangeFromPeriod c resetPage)) = inr result ->
  records (final (run b (loadRecords' c resetPage isSilent) st))
    = filter (classifiedAs (statusFilter c)) (orEmpty (lr_records result)) /\
  total (final (run b (loadRecords' c resetPage isSilent) st)) = lr_total result.
Proof.
  intros Hc Hf Hb. unfold loadRecords. rewrite Hc. simpl negb. cbv iota.
  assert (Hflt : match statusFilter c with
                 | all_status => orEmpty (lr_records result)
                 | f => filter (statusPredicate f) (orEmpty (lr_records result))
                 end = filter (classifiedAs (statusFilter c)) (orEmpty (lr_records result))).
  { destruct (statusFilter c); try congruence;
      apply filter_ext; intros r; apply statusPredicate_classifiedAs. }
  destruct isSilent, resetPage; simpl; rewrite Hb; simpl; rewrite Hflt; auto.
Qed.

End RecordsFacts.

Lemma status_filter_after_fetch_witness :
  let c := (initialState "connected") <| statusFilter := failed |> in
  records (final (run sampleBackend (loadRecords sampleRange c false false) c))
    = [ mkRecord 3 None false false (Some 500);
        mkRecord 4 None true true (Some 429);
        mkRecord 5 None false false None ] /\
  total (final (run sampleBackend (loadRecords sampleRange c false false) c)) = 57.
Proof.
  exact (status_filter_after_fetch sampleRange sampleBackend
           ((initialState "connected") <| statusFilter := failed |>)
           ((initialState "connected") <| statusFilter := failed |>)
           false false (mkListResult (Some sampleRows) 57)
           eq_refl ltac:(discriminate) eq_refl).
Defined.

(* ================================================================== *)
(** ** The records page: connection guard and silent refresh *)

Ltac keeps :=
  cbv beta zeta delta [Keeps loadRecords loadAnalytics loadFilterOptions
                       handleRowClick loadRecordDetail tryAwait setState];
  cbn [negb];
  repeat first
    [ apply Each_andThen
    | apply Each_Done
    | apply Each_Update; [intros ?; reflexivity|]
    | apply Each_Await; intros [?|?]
    | apply Each_Notify
    | match goal with
      | |- Each _ (if ?x then _ else _) => destruct x
      end ].

Ltac run_steps :=
  cbn [run andThen tryAwait setState final calls inFlight notices negb app].

Section LoaderFacts.
Context {ModelStats ProviderStats UsageSummary RequestTimelineData : Type}.
Variable getDateRangeFromPeriod : PeriodValue -> DateRange.

Abbreviation State' := (@PageState ModelStats ProviderStats UsageSummary RequestTimelineData).
Abbreviation Server' := (@Backend ModelStats ProviderStats UsageSummary RequestTimelineData).


(** The detail load checks nothing: it always sends its call. *)
Lemma loadRecordDetail_always_calls (b : Server') (st : State') (rid : Z) :
  calls (run b (loadRecordDetail rid) st) = [sent (api_getById rid)] /\
  inFlight (run b (loadRecordDetail rid) st) = [st <| detailLoading := true |>] /\
  (forall record, b _ (api_getById rid) = inr record ->
     selectedRecord (final (run b (loadRecordDetail rid) st)) = Some record).
Proof.
  unfold loadRecordDetail. run_steps.
  destruct (b UsageRecord (api_getById rid)) as [m|r] eqn:E; run_steps;
    repeat split; auto; intros record [= <-]; reflexivity.
Qed.


(** The analytics reload has no silent mode: it raises each section's
    loading flag before its call, and a failed call sets that section's
    error flag (the data itself is kept). *)
Lemma analytics_reload_flags (b : Server') (c st : State') :
  connected c = true ->
  exists rest,
    inFlight (run b (loadAnalytics getDateRangeFromPeriod c) st)
      = (st <| heatmapLoading := true |> <| heatmapError := false |>) :: rest /\
    (forall message, b _ (api_getHeatmap 500) = inl message ->
       heatmapError (final (run b (loadAnalytics getDateRangeFromPeriod c) st)) = true /\
       heatmapData (final (run b (loadAnalytics getDateRangeFromPeriod c) st))
         = heatmapData st).
Proof.
  intros Hc. unfold loadAnalytics. rewrite Hc. cbv zeta. run_steps.
  eexists. split; [reflexivity|].
  intros message Hm. rewrite Hm. run_steps.
  repeat match goal with
         | |- context [b ?R ?req] => destruct (b R req); run_steps
         end;
    split; reflexivity.
Qed.





End LoaderFacts.



(** The page at rest: connected, everything loaded once, nothing loading. *)
Definition restingState : @PageState unit unit unit unit :=
  (initialState "connected")
    <| loading := false |> <| records := sampleRows |> <| total := 57 |>
    <| heatmapData := Some (mkHeatmap [mkDay "2024-01-31" 3 10] 3) |>
    <| heatmapLoading := false |> <| modelStatsLoading := false |>
    <| summaryLoading := false |> <| providerStatsLoading := false |>
    <| timelineLoading := false |> <| filterOptionsLoading := false |>.



(* ================================================================== *)
(** ** The records page: pagination and the debounced reload *)

Section PageFacts.
Context {ModelStats ProviderStats UsageSummary RequestTimelineData : Type}.
Variable getDateRangeFromPeriod : PeriodValue -> DateRange.
Variable b : @Backend ModelStats ProviderStats UsageSummary RequestTimelineData.

Abbreviation St := (@PageState ModelStats ProviderStats UsageSummary RequestTimelineData).
Abbreviation Pg := (@Page ModelStats ProviderStats UsageSummary RequestTimelineData).
Abbreviation Prog := (@Async ModelStats ProviderStats UsageSummary RequestTimelineData).


Lemma loadRecords_keeps_page (c : St) isSilent :
  Keeps (fun s => (page s, controls s))
        (loadRecords getDateRangeFromPeriod c false isSilent).
Proof. keeps. Qed.

Lemma loadAnalytics_keeps_controls (c : St) :
  Keeps (fun s => (page s, controls s)) (loadAnalytics getDateRangeFromPeriod c).
Proof. keeps. Qed.

Lemma loadFilterOptions_keeps_controls (c : St) :
  Keeps (fun s => (page s, controls s)) (loadFilterOptions getDateRangeFromPeriod c).
Proof. keeps. Qed.

Lemma handleRowClick_keeps_controls record :
  Keeps (fun s : St => (page s, controls s)) (handleRowClick record).
Proof. keeps. Qed.

Lemma perform_keeps {A} (g : St -> A) (p : Prog) (pg : Pg) :
  Keeps g p -> g (state (perform b p pg)) = g (state pg).
Proof. intros H. exact (run_keeps g b p H (state pg)). Qed.

Lemma loadRecords_calls (c st : St) resetPage isSilent :
  connected c = true ->
  calls (run b (loadRecords getDateRangeFromPeriod c resetPage isSilent) st)
  = [sent (api_list (listQuery getDateRangeFromPeriod c resetPage))].
Proof.
  intros Hc. unfold loadRecords. rewrite Hc.
  destruct isSilent, resetPage; run_steps;
    destruct (b ListResult _); run_steps; reflexivity.
Qed.

Lemma period_eqb_refl v : period_eqb v v = true.
Proof. destruct v; reflexivity. Qed.

Lemma status_eqb_refl v : status_eqb v v = true.
Proof. destruct v; reflexivity. Qed.

Lemma sameFilterDeps_eq (o n : St) :
  selectedPeriod o = selectedPeriod n -> modelFilter o = modelFilter n ->
  providerFilter o = providerFilter n -> statusFilter o = statusFilter n ->
  sameFilterDeps o n = true.
Proof.
  unfold sameFilterDeps. intros -> -> -> ->.
  now rewrite period_eqb_refl, status_eqb_refl, !String.eqb_refl.
Qed.

Lemma sameAnalyticsDeps_eq (o n : St) :
  connectionStatus o = connectionStatus n -> selectedPeriod o = selectedPeriod n ->
  sameAnalyticsDeps o n = true.
Proof.
  unfold sameAnalyticsDeps. intros -> ->.
  now rewrite period_eqb_refl, String.eqb_refl.
Qed.

Lemma samePageDeps_eq (o n : St) :
  page o = page n -> pageSize o = pageSize n ->
  connectionStatus o = connectionStatus n ->
  samePageDeps o n = true.
Proof.
  unfold samePageDeps. intros -> -> ->.
  now rewrite !Z.eqb_refl, String.eqb_refl.
Qed.

(** The effects of a render leave the page number and the controls alone. *)
Lemma rerender_keeps (o : St) (pg : Pg) :
  page (state (rerender getDateRangeFromPeriod b o pg)) = page (state pg) /\
  controls (state (rerender getDateRangeFromPeriod b o pg)) = controls (state pg).
Proof.
  assert (H : (fun s : St => (page s, controls s))
                (state (rerender getDateRangeFromPeriod b o pg))
              = (page (state pg), controls (state pg))).
  { unfold rerender, autoRefreshEffect, analyticsEffect, pageEffect,
      filterEffect, refreshOnce.
    set (n := state pg).
    destruct (sameFilterDeps o n), (samePageDeps o n), (sameAnalyticsDeps o n),
      (sameAutoRefreshDeps o n), (autoRefresh n);
      repeat first
        [ rewrite (perform_keeps (fun s : St => (page s, controls s)))
            by first [ apply loadRecords_keeps_page
                     | apply loadAnalytics_keeps_controls
                     | apply loadFilterOptions_keeps_controls ]
        | progress change (state (apply_update (mk_update filterTimeout ?f) ?x))
            with (state x)
        | progress change (state (apply_update (mk_update autoRefreshInterval ?f) ?x))
            with (state x) ];
      reflexivity. }
  cbv beta in H. split.
  - exact (f_equal fst H).
  - exact (f_equal snd H).
Qed.

Lemma log_perform (p : Prog) (pg : Pg) :
  log (perform b p pg) = (log pg ++ calls (run b p (state pg)))%list.
Proof. reflexivity. Qed.

Lemma sameAutoRefreshDeps_page (o n : St) :
  samePageDeps o n = false -> sameAutoRefreshDeps o n = false.
Proof.
  unfold sameAutoRefreshDeps, sameLoadRecords. intros ->.
  destruct (Bool.eqb _ _); reflexivity.
Qed.

Lemma controls_eq (s s' : St) :
  controls s = controls s' ->
  pageSize s = pageSize s' /\ selectedPeriod s = selectedPeriod s' /\
  modelFilter s = modelFilter s' /\ providerFilter s = providerFilter s' /\
  statusFilter s = statusFilter s' /\ connectionStatus s = connectionStatus s' /\
  autoRefresh s = autoRefresh s'.
Proof.
  unfold controls.
  generalize (pageSize s), (pageSize s'), (selectedPeriod s), (selectedPeriod s'),
    (modelFilter s), (modelFilter s'), (providerFilter s), (providerFilter s'),
    (statusFilter s), (statusFilter s'), (connectionStatus s), (connectionStatus s'),
    (autoRefresh s), (autoRefresh s').
  intros. inversion H. repeat split; reflexivity.
Qed.


(** A render after which only the page or the page size has changed, with
    auto refresh off, runs the page effect alone: one list reload. *)
Lemma rerender_page_only (o : St) (pg : Pg) :
  samePageDeps o (state pg) = false ->
  sameFilterDeps o (state pg) = true ->
  sameAnalyticsDeps o (state pg) = true ->
  autoRefresh (state pg) = false ->
  rerender getDateRangeFromPeriod b o pg
  = (perform b (loadRecords getDateRangeFromPeriod (state pg) false false) pg)
      <| autoRefreshInterval := None |>.
Proof.
  intros Hp Hf Ha Hr.
  unfold rerender, autoRefreshEffect, analyticsEffect, pageEffect, filterEffect.
  rewrite Hf, Hp, Ha, (sameAutoRefreshDeps_page _ _ Hp), Hr. reflexivity.
Qed.


(** C8, as the code has it.  A page change sets the page and nothing else
    of the filters, page size, connection or auto-refresh switch; a
    page-size change sets the page size, puts the page back to 1 and leaves
    the four filters alone.  Either one, when it changes its value on a
    connected page with auto refresh off, sends exactly one list call at
    once, for the new page and page size. *)
Theorem page_change_frame (pg : Pg) (newPage newSize : Z) :
  let o := state pg in
  let pc := dispatch getDateRangeFromPeriod b (handlePageChange newPage) pg in
  let ps := dispatch getDateRangeFromPeriod b (handlePageSizeChange newSize) pg in
  (page (state pc) = newPage /\ controls (state pc) = controls o) /\
  (pageSize (state ps) = newSize /\ page (state ps) = 1 /\
   selectedPeriod (state ps) = selectedPeriod o /\
   modelFilter (state ps) = modelFilter o /\
   providerFilter (state ps) = providerFilter o /\
   statusFilter (state ps) = statusFilter o) /\
  (connected o = true -> autoRefresh o = false -> newPage <> page o ->
   log pc = (log pg ++
     [sent (api_list (listQuery getDateRangeFromPeriod
                        (handlePageChange newPage o) false))])%list) /\
  (connected o = true -> autoRefresh o = false -> newSize <> pageSize o ->
   log ps = (log pg ++
     [sent (api_list (listQuery getDateRangeFromPeriod
                        (handlePageSizeChange newSize o) false))])%list).
Proof.
  intros o pc ps.
  destruct (rerender_keeps (state pg)
              (pg <| state := handlePageChange newPage (state pg) |>)) as [Hc1 Hc2].
  destruct (rerender_keeps (state pg)
              (pg <| state := handlePageSizeChange newSize (state pg) |>)) as [Hs1 Hs2].
  fold pc in Hc1, Hc2. fold ps in Hs1, Hs2.
  destruct (controls_eq _ _ Hs2) as (S1 & S2 & S3 & S4 & S5 & S6 & S7).
  split; [split; [exact Hc1|exact Hc2]|].
  split; [repeat split; assumption|].
  split.
  - intros Hconn Hauto Hne. unfold pc, dispatch.
    rewrite rerender_page_only.
    + change (log ?x <| autoRefreshInterval := None |>) with (log x).
      rewrite log_perform. f_equal.
      apply loadRecords_calls. exact Hconn.
    + unfold samePageDeps.
      replace (page (state pg) =? _) with false; [reflexivity|].
      symmetry. apply Z.eqb_neq. intros E. apply Hne. symmetry. exact E.
    + apply sameFilterDeps_eq; reflexivity.
    + apply sameAnalyticsDeps_eq; reflexivity.
    + exact Hauto.
  - intros Hconn Hauto Hne. unfold ps, dispatch.
    rewrite rerender_page_only.
    + change (log ?x <| autoRefreshInterval := None |>) with (log x).
      rewrite log_perform. f_equal.
      apply loadRecords_calls. exact Hconn.
    + unfold samePageDeps.
      replace (pageSize (state pg) =? _) with false.
      * destruct (page (state pg) =? _); reflexivity.
      * symmetry. apply Z.eqb_neq. intros E. apply Hne. symmetry. exact E.
    + apply sameFilterDeps_eq; reflexivity.
    + apply sameAnalyticsDeps_eq; reflexivity.
    + exact Hauto.
Qed.

(** *** The debounced reload *)

(** Any change of a filter leaves one pending timeout, due 300 ms later:
    an earlier one is replaced, not added to. *)
Lemma filter_change_rearms (f : St -> St) (pg : Pg) :
  sameFilterDeps (state pg) (f (state pg)) = false ->
  filterTimeout (dispatch getDateRangeFromPeriod b f pg)
  = Some (clock pg + 300, f (state pg)).
Proof.
  intros Hf. unfold dispatch, rerender, autoRefreshEffect, analyticsEffect,
    pageEffect, filterEffect, refreshOnce.
  change (state (pg <| state := f (state pg) |>)) with (f (state pg)).
  rewrite Hf.
  repeat match goal with
         | |- context [if ?x then _ else _] => destruct x
         end; reflexivity.
Qed.


End PageFacts.

Lemma page_change_frame_witness :
  let pg := mkPage (restingState <| page := 3 |>) None None 0 [] in
  page (state (dispatch sampleRange sampleBackend (handlePageChange 2) pg)) = 2 /\
  log (dispatch sampleRange sampleBackend (handlePageChange 2) pg)
    = [sent (api_list (mkQuery 2 20 "timestamp" "desc" None None None None))] /\
  page (state (dispatch sampleRange sampleBackend (handlePageSizeChange 50) pg)) = 1 /\
  log (dispatch sampleRange sampleBackend (handlePageSizeChange 50) pg)
    = [sent (api_list (mkQuery 1 50 "timestamp" "desc" None None None None))].
Proof.
  cbv zeta.
  pose proof (page_change_frame sampleRange sampleBackend
                (mkPage (restingState <| page := 3 |>) None None 0 []) 2 50)
    as ((H1 & _) & (_ & H2 & _) & H3 & H4).
  split; [exact H1|]. split.
  - apply H3; [reflexivity | reflexivity | discriminate].
  - split; [exact H2|].
    apply H4; [reflexivity | reflexivity | discriminate].
Defined.

(** C8 as stated fails for the page size: choosing 50 rows a page on page 3
    puts the page back to 1. *)
Lemma page_size_change_resets_page :
  let pg := mkPage (restingState <| page := 3 |>) None None 0 [] in
  page (state pg) = 3 /\
  option_map (fun p => (pageSize (state p), page (state p)))
    (step sampleRange sampleBackend (PageSizeChange 50) pg) = Some (50, 1) /\
  option_map (fun p => page (state p))
    (step sampleRange sampleBackend (PageSizeChange 50) pg)
    <> Some (page (state pg)).
Proof.
  cbv zeta. split; [reflexivity|]. split; [vm_compute; reflexivity|].
  vm_compute. discriminate.
Qed.

(** C9, at the failing input.  On page 3, the period and then the model
    filter change within 300 ms; the one pending timeout fires 300 ms after
    the second change, and the reload is two list calls for page 1, not
    one.  From page 1 the same events send one. *)
Theorem debounced_reload_fetches_twice :
  let evs := [SetSelectedPeriod last7days; Wait 100;
              SetModelFilter "gpt"%string; Wait 300; FilterTimeoutFires] in
  let q := mkQuery 1 20 "timestamp" "desc" None None (Some "gpt"%string) None in
  let from3 := mkPage (restingState <| page := 3 |>) None None 0 [] in
  let from1 := mkPage restingState None None 0 [] in
  option_map (fun p => (page (state p), listCalls (log p)))
    (exec sampleRange sampleBackend evs from3)
    = Some (1, [sent (api_list q); sent (api_list q)]) /\
  option_map (fun p => (page (state p), listCalls (log p)))
    (exec sampleRange sampleBackend evs from1)
    = Some (1, [sent (api_list q)]) /\
  exec sampleRange sampleBackend
    [SetSelectedPeriod last7days; Wait 100; SetModelFilter "gpt"%string;
     Wait 299; FilterTimeoutFires] from3 = None.
Proof.
  cbv zeta. split; [vm_compute; reflexivity|].
  split; vm_compute; reflexivity.
Qed.

(* ================================================================== *)
(** * Further properties of the heatmap *)

(** ** The layout of an arbitrary feed *)

Lemma layout_weeks_unfold d0 t :
  fst (layout (d0 :: t)) =
  weeks (finish (fold_left visit (d0 :: t)
                   (mkAcc [] [] (leadingPad (getUTCDay (dateOf d0))) (Some (-1))))).
Proof. reflexivity. Qed.

(** Whatever the dates are, the weeks laid end to end are the leading pad,
    the feed, and fewer than seven closing sentinels. *)
Lemma layout_flat d0 t :
  exists trailing : nat,
    (trailing < 7)%nat /\
    List.concat (fst (layout (d0 :: t)))
    = leadingPad (getUTCDay (dateOf d0)) ++ (d0 :: t) ++ repeat sentinel trailing.
Proof.
  rewrite layout_weeks_unfold.
  set (a0 := mkAcc [] [] (leadingPad (getUTCDay (dateOf d0))) (Some (-1))).
  pose proof (fold_visit_flat (d0 :: t) a0) as Hflat.
  set (a := fold_left visit (d0 :: t) a0) in *.
  unfold flat in Hflat. simpl List.concat in Hflat. simpl app in Hflat at 2.
  rewrite finish_weeks.
  destruct (currentWeek a) as [|c cw] eqn:Hcw.
  - exists 0%nat. split; [lia|].
    rewrite app_nil_r in Hflat. rewrite Hflat. simpl repeat.
    rewrite app_nil_r. reflexivity.
  - exists (7 - List.length (c :: cw))%nat. split; [simpl List.length; lia|].
    rewrite concat_app, concat_cons, concat_nil, app_nil_r, app_assoc, Hflat.
    rewrite <- app_assoc. reflexivity.
Qed.

(** X1. An empty feed gives an empty layout.  For any other feed, whatever
    its dates (gaps, repeats, unparseable strings), the weeks laid end to end
    are the leading pad, then every day of the feed once and in order, then
    fewer than seven sentinels: no day is dropped, repeated or moved. *)
Theorem layout_keeps_every_day :
  layout [] = ([], []) /\
  forall d0 t,
  exists trailing : nat,
    (trailing < 7)%nat /\
    List.concat (fst (layout (d0 :: t)))
    = leadingPad (getUTCDay (dateOf d0)) ++ (d0 :: t) ++ repeat sentinel trailing.
Proof. split; [reflexivity|exact layout_flat]. Qed.

(** ** Rows are weekdays *)

(** Every real day of the week stands in the row of its UTC weekday. *)
Definition rowsAreWeekdays (week : list ActivityHeatmapDay) : Prop :=
  forall i d, nth_error week i = Some d -> isSentinel d = false ->
              getUTCDay (dateOf d) = Some (Z.of_nat i).

Lemma rows_repeat_sentinel n : rowsAreWeekdays (repeat sentinel n).
Proof.
  intros i d H Hs. apply nth_error_In, repeat_spec in H. subst d.
  discriminate Hs.
Qed.

Lemma rows_pad week n :
  rowsAreWeekdays week -> rowsAreWeekdays (week ++ repeat sentinel n).
Proof.
  intros Hw i d H Hs.
  destruct (Nat.lt_ge_cases i (List.length week)) as [Hi|Hi].
  - rewrite nth_error_app1 in H by exact Hi. exact (Hw i d H Hs).
  - rewrite nth_error_app2 in H by exact Hi.
    exfalso. apply nth_error_In, repeat_spec in H. subst d. discriminate Hs.
Qed.

Lemma rows_snoc week d :
  rowsAreWeekdays week ->
  getUTCDay (dateOf d) = Some (Z.of_nat (List.length week)) ->
  rowsAreWeekdays (week ++ [d]).
Proof.
  intros Hw Hd i x H Hs.
  destruct (Nat.lt_ge_cases i (List.length week)) as [Hi|Hi].
  - rewrite nth_error_app1 in H by exact Hi. exact (Hw i x H Hs).
  - rewrite nth_error_app2 in H by exact Hi.
    destruct (i - List.length week)%nat as [|k] eqn:Hk; simpl in H.
    + injection H as <-. rewrite Hd. do 2 f_equal. lia.
    + destruct k; discriminate H.
Qed.

Lemma fold_visit_rows days : forall prev a,
  chain prev days = true ->
  Forall rowsAreWeekdays (weeks a) ->
  rowsAreWeekdays (currentWeek a) ->
  Z.of_nat (List.length (currentWeek a)) = WeekDay (prev + 1) ->
  Forall rowsAreWeekdays (weeks (fold_left visit days a)) /\
  rowsAreWeekdays (currentWeek (fold_left visit days a)).
Proof.
  induction days as [|d t IH]; intros prev a Hc Hw Hcw Hl; simpl.
  - split; assumption.
  - simpl in Hc. destruct (dateOf d) as [u|] eqn:Hu; [|discriminate].
    apply andb_prop in Hc. destruct Hc as [Hp Hc]. apply Z.eqb_eq in Hp.
    assert (Hrow : rowsAreWeekdays (currentWeek a ++ [d])).
    { apply rows_snoc; [exact Hcw|]. rewrite Hu. simpl. rewrite Hl, Hp.
      reflexivity. }
    apply (IH (MakeDay u)); [exact Hc| | |].
    + rewrite visit_weeks, Hu. simpl.
      destruct (WeekDay (MakeDay u) =? 6); [|exact Hw].
      apply Forall_app. split; [exact Hw|]. constructor; [exact Hrow|constructor].
    + rewrite visit_currentWeek, Hu. simpl.
      destruct (WeekDay (MakeDay u) =? 6); [|exact Hrow].
      intros i x H. destruct i; discriminate H.
    + rewrite visit_currentWeek, Hu. simpl. rewrite WeekDay_succ.
      destruct (Z.eqb_spec (WeekDay (MakeDay u)) 6) as [E|E]; [reflexivity|].
      rewrite List.length_app. simpl. rewrite Hp. lia.
Qed.

(** X2. In the layout of a non-empty, calendar-contiguous feed, every entry
    that is not a sentinel stands at the index of its own UTC weekday
    (0 = Sunday ... 6 = Saturday) within its week. *)
Theorem layout_rows_are_weekdays (days : list ActivityHeatmapDay) :
  days <> [] ->
  contiguous days = true ->
  Forall rowsAreWeekdays (fst (layout days)).
Proof.
  intros Hne Hc. destruct days as [|d0 t]; [congruence|]. clear Hne.
  pose proof Hc as Hc0. simpl in Hc0.
  destruct (dateOf d0) as [u|] eqn:Hu; [|discriminate].
  pose proof (contiguous_chain _ _ _ Hc Hu) as Hch.
  rewrite layout_weeks_unfold, Hu. simpl getUTCDay.
  set (a0 := mkAcc [] [] (leadingPad (Some (WeekDay (MakeDay u)))) (Some (-1))).
  destruct (fold_visit_rows (d0 :: t) (MakeDay u - 1) a0 Hch) as [Hw Hcw].
  { constructor. }
  { apply rows_repeat_sentinel. }
  { simpl. rewrite repeat_length.
    replace (MakeDay u - 1 + 1) with (MakeDay u) by lia.
    pose proof (WeekDay_range (MakeDay u)). lia. }
  rewrite finish_weeks.
  destruct (currentWeek (fold_left visit (d0 :: t) a0)) as [|c cw] eqn:E.
  - exact Hw.
  - apply Forall_app. split; [exact Hw|].
    constructor; [|constructor]. apply rows_pad. exact Hcw.
Qed.

Lemma layout_rows_are_weekdays_witness :
  Forall rowsAreWeekdays
    (fst (layout [mkDay "2024-01-31" 3 10; mkDay "2024-02-01" 0 0;
                  mkDay "2024-02-02" 7 70; mkDay "2024-02-03" 1 5;
                  mkDay "2024-02-04" 2 9])).
Proof.
  apply layout_rows_are_weekdays; [discriminate | reflexivity].
Defined.

(** ** The number of weeks *)

Lemma layout_seven d0 t u :
  contiguous (d0 :: t) = true -> dateOf d0 = Some u ->
  Forall seven (fst (layout (d0 :: t))).
Proof.
  intros Hc Hu.
  pose proof (contiguous_chain _ _ _ Hc Hu) as Hch.
  rewrite layout_weeks_unfold, Hu. simpl getUTCDay.
  set (a0 := mkAcc [] [] (leadingPad (Some (WeekDay (MakeDay u)))) (Some (-1))).
  destruct (fold_visit_seven (d0 :: t) (MakeDay u - 1) a0 Hch) as [H7 Hlt].
  { constructor. }
  { simpl. rewrite repeat_length.
    replace (MakeDay u - 1 + 1) with (MakeDay u) by lia.
    pose proof (WeekDay_range (MakeDay u)). lia. }
  rewrite finish_weeks.
  destruct (currentWeek (fold_left visit (d0 :: t) a0)) as [|c cw] eqn:E.
  - exact H7.
  - apply Forall_app. split; [exact H7|]. constructor; [|constructor].
    unfold seven. rewrite List.length_app, repeat_length. lia.
Qed.

Lemma length_concat_seven (ws : list (list ActivityHeatmapDay)) :
  Forall seven ws -> List.length (List.concat ws) = (7 * List.length ws)%nat.
Proof.
  induction 1 as [|w ws Hw _ IH]; [reflexivity|].
  simpl List.concat. rewrite List.length_app, IH. unfold seven in Hw.
  simpl List.length. lia.
Qed.

(** X3. A non-empty, calendar-contiguous feed of n days whose first day has
    UTC weekday w is laid out in exactly ceil((w + n) / 7) weeks. *)
Theorem layout_week_count (d0 : ActivityHeatmapDay) (t : list ActivityHeatmapDay)
    (u : UTCDate) :
  contiguous (d0 :: t) = true ->
  dateOf d0 = Some u ->
  Z.of_nat (List.length (fst (layout (d0 :: t))))
  = (WeekDay (MakeDay u) + Z.of_nat (List.length (d0 :: t)) + 6) / 7.
Proof.
  intros Hc Hu.
  pose proof (length_concat_seven _ (layout_seven d0 t u Hc Hu)) as H7.
  destruct (layout_flat d0 t) as (tr & Htr & Hflat).
  rewrite Hflat, Hu in H7. simpl getUTCDay in H7. simpl leadingPad in H7.
  rewrite !List.length_app, !repeat_length in H7.
  pose proof (WeekDay_range (MakeDay u)) as Hw.
  set (k := List.length (fst (layout (d0 :: t)))) in *.
  set (n := List.length (d0 :: t)) in *.
  set (w := WeekDay (MakeDay u)) in *.
  assert (E : w + Z.of_nat n + Z.of_nat tr = 7 * Z.of_nat k) by lia.
  apply Z.div_unique with (r := 6 - Z.of_nat tr); lia.
Qed.

Lemma layout_week_count_witness :
  Z.of_nat (List.length (fst (layout
    [mkDay "2024-01-31" 3 10; mkDay "2024-02-01" 0 0; mkDay "2024-02-02" 7 70;
     mkDay "2024-02-03" 1 5; mkDay "2024-02-04" 2 9])))
  = (WeekDay (MakeDay (mkDate 2024 0 31)) + 5 + 6) / 7.
Proof.
  apply (layout_week_count (mkDay "2024-01-31" 3 10)
           [mkDay "2024-02-01" 0 0; mkDay "2024-02-02" 7 70;
            mkDay "2024-02-03" 1 5; mkDay "2024-02-04" 2 9]
           (mkDate 2024 0 31)); reflexivity.
Defined.

(** ** Label columns stay inside the grid *)

(** A label's column is a week already closed, or the week being filled. *)
Definition colsInside (a : Acc) : Prop :=
  Forall (fun c => 0 <= c /\
                   (c < doneWeeks a \/ (c = doneWeeks a /\ currentWeek a <> [])))
         (cols a).

Lemma visit_colsInside a d : colsInside a -> colsInside (visit a d).
Proof.
  unfold colsInside. intros H.
  rewrite visit_cols, visit_doneWeeks, visit_currentWeek.
  assert (Hold : Forall (fun c => 0 <= c /\
            (c < (if strict_eqZ (getUTCDay (dateOf d)) 6
                  then doneWeeks a + 1 else doneWeeks a) \/
             (c = (if strict_eqZ (getUTCDay (dateOf d)) 6
                   then doneWeeks a + 1 else doneWeeks a) /\
              (if strict_eqZ (getUTCDay (dateOf d)) 6
               then [] else currentWeek a ++ [d]) <> []))) (cols a)).
  { eapply Forall_impl; [|exact H]. simpl. intros c [H0 Hc].
    split; [exact H0|].
    destruct (strict_eqZ _ 6).
    - left. lia.
    - destruct Hc as [Hc|[Hc _]]; [left; exact Hc|right].
      split; [exact Hc|]. intros E. apply app_eq_nil in E.
      destruct E as [_ E]. discriminate E. }
  destruct (strict_neq _ _); [|exact Hold].
  apply Forall_app. split; [exact Hold|].
  constructor; [|constructor]. unfold doneWeeks at 1. split; [lia|].
  destruct (strict_eqZ _ 6).
  - left. lia.
  - right. split; [reflexivity|]. intros E. apply app_eq_nil in E.
    destruct E as [_ E]. discriminate E.
Qed.

Lemma fold_visit_colsInside days : forall a,
  colsInside a -> colsInside (fold_left visit days a).
Proof.
  induction days as [|d t IH]; intros a H; simpl; [exact H|].
  apply IH, visit_colsInside, H.
Qed.

Lemma layout_cols_inside (days : list ActivityHeatmapDay) :
  Forall (fun l => 0 <= colStart l < Z.of_nat (List.length (fst (layout days))))
         (snd (layout days)).
Proof.
  destruct days as [|d0 t]; [constructor|].
  set (a0 := mkAcc [] [] (leadingPad (getUTCDay (dateOf d0))) (Some (-1))).
  assert (H0 : colsInside a0) by constructor.
  pose proof (fold_visit_colsInside (d0 :: t) a0 H0) as H.
  set (a := fold_left visit (d0 :: t) a0) in *.
  change (fst (layout (d0 :: t))) with (weeks (finish a)).
  change (snd (layout (d0 :: t))) with (monthLabels (finish a)).
  rewrite finish_weeks, finish_monthLabels.
  unfold colsInside, cols, doneWeeks in H. rewrite Forall_map in H.
  destruct (currentWeek a) as [|c cw];
    (eapply Forall_impl; [|exact H]); cbv beta; intros l [Hl0 Hl];
    (split; [exact Hl0|]).
  - destruct Hl as [Hl|[_ Hl]]; [exact Hl|congruence].
  - rewrite List.length_app. simpl List.length. lia.
Qed.

(** X4. For every feed and every stored visible-week count, each month
    label that is shown points at a column of the grid that is shown:
    its column is at least 0 and below the number of visible weeks.  With
    all weeks visible this is: every label's column is one of the layout's
    weeks. *)
Theorem visible_labels_inside_grid (days : list ActivityHeatmapDay) (count : Z) :
  Forall (fun l => 0 <= colStart l < Z.of_nat (List.length (fst (layout days))))
         (snd (layout days)) /\
  Forall (fun l => 0 <= colStart l
                   < Z.of_nat (List.length (visibleWeeks (fst (layout days)) count)))
         (visibleMonthLabels (snd (layout days))
            (Z.of_nat (List.length (fst (layout days)))) count).
Proof.
  pose proof (layout_cols_inside days) as H.
  split; [exact H|].
  set (ws := fst (layout days)) in *. set (labels := snd (layout days)) in *.
  unfold visibleMonthLabels, visibleWeeks.
  destruct ((count >=? Z.of_nat (List.length ws)) || (count =? 0)) eqn:E;
    [exact H|].
  apply orb_false_elim in E. destruct E as [E1 E2].
  rewrite Z.geb_leb in E1. apply Z.leb_gt in E1. apply Z.eqb_neq in E2.
  rewrite Forall_map. apply Forall_forall. intros l Hl.
  apply filter_In in Hl. destruct Hl as [Hin Hge].
  rewrite Z.geb_leb in Hge. apply Z.leb_le in Hge.
  rewrite Forall_forall in H. specialize (H l Hin).
  simpl colStart. rewrite length_skipn. lia.
Qed.

(** ** Intensity levels are ordered *)

Lemma getIntensityLevel_range r m : 0 <= getIntensityLevel r m <= 4.
Proof.
  unfold getIntensityLevel.
  repeat match goal with
         | |- context [if ?x then _ else _] => destruct x
         end; lia.
Qed.

Lemma getIntensityLevel_zero r m :
  getIntensityLevel r m = 0 <-> r = 0 \/ m = 0.
Proof.
  unfold getIntensityLevel.
  destruct (Z.eqb_spec r 0) as [Hr|Hr]; [tauto|].
  destruct (Z.eqb_spec m 0) as [Hm|Hm]; [tauto|].
  repeat match goal with
         | |- context [if ?x then _ else _] => destruct x
         end; split; intros H; try discriminate H; destruct H; contradiction.
Qed.



(** ** Active days and coloured cells *)

Lemma coloured_iff_active day m :
  m <> 0 ->
  (1 <=? dataLevel (renderCell day m)) = (0 <? requests day).
Proof.
  intros Hm. unfold renderCell. simpl dataLevel.
  destruct (Z.ltb_spec 0 (requests day)) as [Hp|Hp].
  - replace (requests day >=? 0) with true
      by (symmetry; rewrite Z.geb_leb; apply Z.leb_le; lia).
    apply Z.leb_le.
    pose proof (getIntensityLevel_range (requests day) m).
    pose proof (getIntensityLevel_zero (requests day) m). lia.
  - apply Z.leb_gt.
    destruct (requests day >=? 0) eqn:E; [|lia].
    rewrite Z.geb_leb in E. apply Z.leb_le in E.
    replace (requests day) with 0 by lia. reflexivity.
Qed.

Definition activeIn (l : list ActivityHeatmapDay) : nat :=
  List.length (filter (fun day => 0 <? requests day) l).

Lemma colouredCells_renderGrid ws m :
  m <> 0 -> colouredCells (renderGrid ws m) = Z.of_nat (activeIn (List.concat ws)).
Proof.
  intros Hm. unfold colouredCells, renderGrid, activeIn. f_equal.
  rewrite <- concat_map.
  induction (List.concat ws) as [|day l IH]; [reflexivity|].
  cbn [map filter]. rewrite (coloured_iff_active day m Hm).
  destruct (0 <? requests day); cbn [List.length]; rewrite IH; reflexivity.
Qed.

Lemma activeIn_app l1 l2 : activeIn (l1 ++ l2) = (activeIn l1 + activeIn l2)%nat.
Proof. unfold activeIn. rewrite filter_app, List.length_app. reflexivity. Qed.

Lemma activeIn_repeat_sentinel n : activeIn (repeat sentinel n) = 0%nat.
Proof. induction n; simpl; auto. Qed.

Lemma activeIn_skipn (ws : list (list ActivityHeatmapDay)) k :
  (activeIn (List.concat (skipn k ws)) <= activeIn (List.concat ws))%nat.
Proof.
  rewrite <- (firstn_skipn k ws) at 2. rewrite concat_app, activeIn_app. lia.
Qed.

(** X6. When the card shows the grid (not loading, no error, a non-empty
    feed) and max_requests is not 0, the cells drawn with a colour never
    outnumber the active-days figure in the header, and when every week is
    visible they are exactly as many: the figure counts the whole feed, also
    the weeks cut off on the left. *)
Theorem active_days_cover_coloured_cells (d : ActivityHeatmapData) (count : Z) :
  days d <> [] ->
  max_requests d <> 0 ->
  exists labels grid,
    heatmapView (Some d) false false count = GridView (activeDays (Some d)) labels grid /\
    colouredCells grid <= activeDays (Some d) /\
    (count = 0 \/ Z.of_nat (List.length (fst (layout (days d)))) <= count ->
     colouredCells grid = activeDays (Some d)).
Proof.
  intros Hne Hm. unfold heatmapView. cbn [hasData].
  destruct (days d) as [|d0 t] eqn:Hd; [congruence|]. clear Hne.
  cbn [List.length Nat.eqb negb].
  destruct (layout (d0 :: t)) as [ws labels] eqn:Hl.
  do 2 eexists. split; [reflexivity|].
  rewrite colouredCells_renderGrid by exact Hm.
  assert (Hws : ws = fst (layout (d0 :: t))) by (rewrite Hl; reflexivity).
  assert (Hall : Z.of_nat (activeIn (List.concat ws)) = activeDays (Some d)).
  { destruct (layout_flat d0 t) as (tr & _ & Hflat).
    rewrite Hws, Hflat. unfold activeDays. rewrite Hd. f_equal.
    rewrite !activeIn_app, activeIn_repeat_sentinel.
    destruct (getUTCDay (dateOf d0)); simpl leadingPad;
      rewrite ?activeIn_repeat_sentinel; unfold activeIn; simpl; lia. }
  cbn [fst]. unfold visibleWeeks.
  destruct ((count >=? Z.of_nat (List.length ws)) || (count =? 0)) eqn:E.
  - split; [lia|]. intros _. exact Hall.
  - apply orb_false_elim in E. destruct E as [E1 E2].
    rewrite Z.geb_leb in E1. apply Z.leb_gt in E1. apply Z.eqb_neq in E2.
    split; [|lia].
    rewrite <- Hall. apply inj_le, activeIn_skipn.
Qed.

Lemma active_days_cover_coloured_cells_witness :
  let d := mkHeatmap [mkDay "2024-02-02" 7 70; mkDay "2024-02-03" 0 0;
                      mkDay "2024-02-04" 2 9] 7 in
  exists labels grid,
    heatmapView (Some d) false false 1 = GridView (activeDays (Some d)) labels grid /\
    colouredCells grid <= activeDays (Some d) /\
    (1 = 0 \/ Z.of_nat (List.length (fst (layout (days d)))) <= 1 ->
     colouredCells grid = activeDays (Some d)).
Proof.
  apply (active_days_cover_coloured_cells
           (mkHeatmap [mkDay "2024-02-02" 7 70; mkDay "2024-02-03" 0 0;
                       mkDay "2024-02-04" 2 9] 7) 1);
    discriminate.
Defined.

(** ** The visible-week count as a function of the width *)

(** X7. For a layout with at least one week, the visible-week count is
    between 1 and the number of weeks for every width; over positive widths
    it never decreases as the container grows; and from 31 pixels on, every
    further 14 pixels (a cell and a gap) show one more week until all are
    shown. *)
Theorem visible_count_grows_with_width (w1 w2 total : Z) :
  0 < w1 <= w2 ->
  0 < total ->
  (forall w, 1 <= updateVisibleWeeks w total <= total) /\
  updateVisibleWeeks w1 total <= updateVisibleWeeks w2 total /\
  (31 <= w1 ->
   updateVisibleWeeks (w1 + 14) total
   = Z.min total (updateVisibleWeeks w1 total + 1)).
Proof.
  intros Hw Ht.
  assert (P : forall w, 0 < w ->
            updateVisibleWeeks w total = Z.min (Z.max ((w - 17) / 14) 1) total).
  { intros w H0. unfold updateVisibleWeeks, WEEKDAY_LABEL_WIDTH, CELL_GAP, CELL_SIZE.
    replace (w <=? 0) with false by (symmetry; apply Z.leb_gt; lia).
    replace (total =? 0) with false by (symmetry; apply Z.eqb_neq; lia).
    cbn [orb]. cbv zeta. do 2 f_equal. f_equal. lia. }
  split; [|split].
  - intros w. destruct (Z.lt_ge_cases 0 w) as [H0|H0].
    + rewrite (P w H0). lia.
    + rewrite updateVisibleWeeks_no_width by lia. lia.
  - rewrite (P w1), (P w2) by lia.
    assert ((w1 - 17) / 14 <= (w2 - 17) / 14) by (apply Z.div_le_mono; lia).
    lia.
  - intros H31. rewrite (P w1), (P (w1 + 14)) by lia.
    replace (w1 + 14 - 17) with ((w1 - 17) + 1 * 14) by lia.
    rewrite Z.div_add by lia.
    assert (1 <= (w1 - 17) / 14) by (apply Z.div_le_lower_bound; lia).
    lia.
Qed.

Lemma visible_count_grows_with_width_witness :
  (forall w, 1 <= updateVisibleWeeks w 10 <= 10) /\
  updateVisibleWeeks 80 10 <= updateVisibleWeeks 120 10 /\
  (31 <= 80 -> updateVisibleWeeks (80 + 14) 10
               = Z.min 10 (updateVisibleWeeks 80 10 + 1)).
Proof. apply visible_count_grows_with_width; lia. Defined.

(* ================================================================== *)
(** * Further properties of the records page *)

From Stdlib Require Import Permutation.

(** ** Badges and status filters *)

(** X8. The status filters and the row badges use the same test for
    failure: the 'failed' filter keeps exactly the rows badged failed.  A row
    badged streaming or standard passes the filter of that name; no row
    passes both of these filters, and every row passes at least one of the
    three.  The two differ on one kind of row only: a successful row with a
    status code of 400 or more passes the 'streaming' or 'standard' filter
    while it is badged failed. *)
Theorem badge_agrees_with_filter (r : UsageRecord) :
  (statusPredicate failed r = true <-> getStatusBadge r = badge_failed) /\
  (getStatusBadge r = badge_streaming -> statusPredicate streaming r = true) /\
  (getStatusBadge r = badge_standard -> statusPredicate standard r = true) /\
  statusPredicate streaming r && statusPredicate standard r = false /\
  statusPredicate streaming r || statusPredicate standard r
    || statusPredicate failed r = true /\
  ((statusPredicate streaming r || statusPredicate standard r = true /\
    getStatusBadge r = badge_failed)
   <-> (success r = true /\ exists code, status_code r = Some code /\ 400 <= code)).
Proof.
  assert (Hf : truthy (status_code r) && geZ (status_code r) 400 = true
               <-> exists code, status_code r = Some code /\ 400 <= code).
  { unfold truthy, geZ. destruct (status_code r) as [code|].
    - destruct (Z.eqb_spec code 0) as [E0|E0], (Z.leb_spec 400 code) as [E4|E4];
        cbn [negb andb]; split; try discriminate; try reflexivity;
        try (intros (c & [= <-] & ?); lia).
      intros _. exists code. split; [reflexivity|exact E4].
    - split; [discriminate|]. intros (c & [=] & _). }
  unfold getStatusBadge, statusPredicate.
  destruct (truthy (status_code r) && geZ (status_code r) 400),
    (is_streaming r), (success r); cbn [negb andb orb];
    intuition (auto; try discriminate; try congruence).
Qed.

Ltac settle_with b H :=
  repeat first
    [ rewrite H; run_steps
    | match goal with
      | |- context [b ?R ?req] => destruct (b R req); run_steps
      end ].

Section MoreLoaderFacts.
Context {ModelStats ProviderStats UsageSummary RequestTimelineData : Type}.
Variable getDateRangeFromPeriod : PeriodValue -> DateRange.
Variable b : @Backend ModelStats ProviderStats UsageSummary RequestTimelineData.

Abbreviation St2 := (@PageState ModelStats ProviderStats UsageSummary RequestTimelineData).

(** ** Filter options *)

Definition inOrder (l : list string) : Prop :=
  Sorted (fun x y => String.leb x y = true) l.

Lemma insertSorted_perm x l : Permutation (insertSorted x l) (x :: l).
Proof.
  induction l as [|y t IH]; simpl; [reflexivity|].
  destruct (String.leb x y); [reflexivity|].
  rewrite IH. apply perm_swap.
Qed.

Lemma insertSorted_inOrder x l : inOrder l -> inOrder (insertSorted x l).
Proof.
  unfold inOrder. induction 1 as [|y t Ht IH Hy]; simpl.
  - repeat constructor.
  - destruct (String.leb x y) eqn:E.
    + constructor; [constructor; assumption|constructor; exact E].
    + constructor; [exact IH|].
      assert (Eyx : String.leb y x = true).
      { destruct (String.leb_total x y) as [H|H]; [congruence|exact H]. }
      destruct t as [|z t']; simpl.
      * constructor. exact Eyx.
      * inversion Hy; subst.
        destruct (String.leb x z); constructor; assumption.
Qed.

Lemma sortStrings_spec l :
  inOrder (sortStrings l) /\ Permutation (sortStrings l) l.
Proof.
  unfold sortStrings. induction l as [|x t [IHs IHp]]; simpl.
  - split; [constructor|reflexivity].
  - split; [apply insertSorted_inOrder; exact IHs|].
    rewrite insertSorted_perm. constructor. exact IHp.
Qed.

Lemma filterBoolean_nonempty l : Forall (fun s => s <> EmptyString) (filterBoolean l).
Proof.
  unfold filterBoolean. apply Forall_forall. intros s H.
  apply filter_In in H. destruct H as [_ H]. intros ->. discriminate H.
Qed.

(** The list the select offers for a fetched list of names. *)
Definition offered (names : option (list string)) (shown : list string) : Prop :=
  inOrder shown /\
  Forall (fun s => s <> EmptyString) shown /\
  Permutation shown (filterBoolean (orEmpty names)).

Lemma offered_sorted names : offered names (sortStrings (filterBoolean (orEmpty names))).
Proof.
  destruct (sortStrings_spec (filterBoolean (orEmpty names))) as [Hs Hp].
  split; [exact Hs|]. split; [|exact Hp].
  eapply Permutation_Forall; [symmetry; exact Hp|apply filterBoolean_nonempty].
Qed.

(** X9. A filter-options load on a connected page sends one call and always
    ends with its loading flag down.  When the call resolves, the models and
    providers offered are the fetched names without the empty ones, each
    name as often as fetched, in ascending order; a missing list counts as
    empty.  When it fails, both lists are emptied. *)
Theorem filter_options_outcomes (c st : St2) :
  connected c = true ->
  let dateRange := getDateRangeFromPeriod (selectedPeriod c) in
  let req := api_getOptions (start_time dateRange) (end_time dateRange) in
  let o := run b (loadFilterOptions getDateRangeFromPeriod c) st in
  calls o = [sent req] /\
  map filterOptionsLoading (inFlight o) = [true] /\
  filterOptionsLoading (final o) = false /\
  match b _ req with
  | inr result =>
      offered (or_models result) (availableModels (final o)) /\
      offered (or_providers result) (availableProviders (final o))
  | inl _ =>
      availableModels (final o) = [] /\ availableProviders (final o) = []
  end.
Proof.
  intros Hc dateRange req o. unfold o, loadFilterOptions. rewrite Hc.
  cbv zeta. run_steps. fold dateRange. fold req.
  destruct (b OptionsResult req) as [m|result]; run_steps;
    repeat split; try reflexivity; apply offered_sorted.
Qed.

(** ** Outcomes of the list load *)

Lemma orDefault_nonempty message fallback :
  fallback <> EmptyString -> orDefault message fallback <> EmptyString.
Proof.
  unfold orDefault. intros Hf.
  destruct message; simpl; [exact Hf|discriminate].
Qed.

(** X10. A list load on a connected page that is not silent shows the
    loading flag while its one call is in flight and lowers it at the end,
    however the call settles.  When the call resolves, the error text is
    cleared.  When it fails, the rows and the total stay as they were and a
    non-empty error text is shown: the failure's message, or the default
    text when the message is empty.  The page becomes 1 exactly when
    resetPage is set. *)
Theorem list_load_outcomes (c st : St2) (resetPage : bool) :
  connected c = true ->
  let req := api_list (listQuery getDateRangeFromPeriod c resetPage) in
  let o := run b (loadRecords getDateRangeFromPeriod c resetPage false) st in
  calls o = [sent req] /\
  map loading (inFlight o) = [true] /\
  loading (final o) = false /\
  page (final o) = (if resetPage then 1 else page st) /\
  match b _ req with
  | inr result => error (final o) = EmptyString
  | inl message =>
      records (final o) = records st /\ total (final o) = total st /\
      error (final o) = orDefault message load_error_default /\
      error (final o) <> EmptyString
  end.
Proof.
  intros Hc req o. unfold o, loadRecords. rewrite Hc.
  destruct resetPage; run_steps; fold req;
    destruct (b ListResult req) as [m|result]; run_steps;
    repeat split; try reflexivity;
    apply orDefault_nonempty; discriminate.
Qed.

(** ** Outcomes of the detail load *)

Lemma handleRowClick_keeps_list (record : UsageRecord) :
  Keeps (fun s : St2 => (records s, total s, loading s, error s, page s, controls s))
        (handleRowClick record).
Proof. keeps. Qed.

(** X11. Clicking a row selects the request-body tab and sends one detail
    call for that row's id, with the drawer's loading flag up while it is in
    flight and down afterwards.  A resolved call replaces the selected
    record and shows no notification; a failed call keeps the selected
    record and shows one notification, with the failure's message or the
    default text.  Either way the list's rows, total, loading flag, error
    text, page and filters are untouched. *)
Theorem row_click_outcomes (st : St2) (record : UsageRecord) :
  let o := run b (handleRowClick record) st in
  calls o = [sent (api_getById (id record))] /\
  map detailLoading (inFlight o) = [true] /\
  detailLoading (final o) = false /\
  activeTab (final o) = request_body /\
  (records (final o), total (final o), loading (final o), error (final o),
   page (final o), controls (final o))
    = (records st, total st, loading st, error st, page st, controls st) /\
  match b _ (api_getById (id record)) with
  | inr detail => selectedRecord (final o) = Some detail /\ notices o = []
  | inl message =>
      selectedRecord (final o) = selectedRecord st /\
      notices o = [orDefault message load_detail_error_default]
  end.
Proof.
  intros o.
  assert (K := run_keeps _ b _ (handleRowClick_keeps_list record) st).
  cbv beta in K. fold o in K.
  unfold o, handleRowClick, loadRecordDetail. run_steps.
  destruct (b UsageRecord (api_getById (id record))) as [m|detail]; run_steps;
    repeat split; try reflexivity; exact K.
Qed.

(** ** The analytics load, section by section *)

Lemma loadAnalytics_calls (c st : St2) :
  connected c = true ->
  calls (run b (loadAnalytics getDateRangeFromPeriod c) st)
  = analyticsCalls getDateRangeFromPeriod c.
Proof.
  intros Hc. unfold loadAnalytics, analyticsCalls. rewrite Hc. cbv zeta.
  run_steps.
  repeat match goal with
         | |- context [b ?R ?req] => destruct (b R req); run_steps
         end; reflexivity.
Qed.


(** X12. An analytics load on a connected page always sends its five calls
    (heatmap over 500 days, then model stats, summary, provider stats and
    timeline for the period's range), in that order, whichever of them fail,
    and ends with all five loading flags down.  Each section that resolves
    stores its own result and clears its own error flag, whatever happened
    to the other four. *)
Theorem analytics_sections_independent (c st : St2) :
  connected c = true ->
  let s0 := start_time (getDateRangeFromPeriod (selectedPeriod c)) in
  let e0 := end_time (getDateRangeFromPeriod (selectedPeriod c)) in
  let o := run b (loadAnalytics getDateRangeFromPeriod c) st in
  calls o = analyticsCalls getDateRangeFromPeriod c /\
  (heatmapLoading (final o), modelStatsLoading (final o), summaryLoading (final o),
   providerStatsLoading (final o), timelineLoading (final o))
    = (false, false, false, false, false) /\
  (forall data, b _ (api_getHeatmap 500) = inr data ->
     heatmapData (final o) = Some data /\ heatmapError (final o) = false) /\
  (forall result, b _ (api_getModelStats s0 e0) = inr result ->
     modelStats (final o) = orEmpty result /\ modelStatsError (final o) = false) /\
  (forall data, b _ (api_getSummary s0 e0) = inr data ->
     usageSummary (final o) = Some data /\ summaryError (final o) = false) /\
  (forall result, b _ (api_getProviderStats s0 e0) = inr result ->
     providerStats (final o) = orEmpty result /\ providerStatsError (final o) = false) /\
  (forall data, b _ (api_getTimeline s0 e0) = inr data ->
     timelineData (final o) = Some data /\ timelineError (final o) = false).
Proof.
  intros Hc s0 e0 o.
  split; [apply loadAnalytics_calls; exact Hc|].
  unfold o, s0, e0, loadAnalytics. rewrite Hc. cbv zeta. run_steps.
  split.
  - repeat match goal with
           | |- context [b ?R ?req] => destruct (b R req); run_steps
           end; reflexivity.
  - split; [|split; [|split; [|split]]];
      intros v Hv; settle_with b Hv; split; reflexivity.
Qed.

End MoreLoaderFacts.

Lemma filter_options_outcomes_witness :
  let st := initialState "connected" in
  availableModels (final (run sampleBackend (loadFilterOptions sampleRange st) st))
    = ["a"; "b"]%string /\
  filterOptionsLoading (final (run sampleBackend (loadFilterOptions sampleRange st) st))
    = false.
Proof.
  cbv zeta.
  pose proof (filter_options_outcomes sampleRange sampleBackend
                (initialState "connected") (initialState "connected") eq_refl)
    as (_ & _ & H & _).
  split; [reflexivity|exact H].
Defined.

Lemma list_load_outcomes_witness :
  let st := restingState in
  records (final (run deadBackend (loadRecords sampleRange st true false) st))
    = sampleRows /\
  error (final (run deadBackend (loadRecords sampleRange st true false) st))
    = "Network Error"%string /\
  page (final (run deadBackend (loadRecords sampleRange st true false) st)) = 1.
Proof.
  cbv zeta.
  pose proof (list_load_outcomes sampleRange deadBackend restingState restingState
                true eq_refl) as (_ & _ & _ & Hp & Hr & _ & He & _).
  split; [exact Hr|]. split; [exact He|exact Hp].
Defined.

Lemma analytics_sections_independent_witness :
  let st := initialState "connected" in
  calls (run deadBackend (loadAnalytics sampleRange st) st)
    = analyticsCalls sampleRange st /\
  heatmapLoading (final (run deadBackend (loadAnalytics sampleRange st) st)) = false.
Proof.
  cbv zeta.
  pose proof (analytics_sections_independent sampleRange deadBackend
                (initialState "connected") (initialState "connected") eq_refl)
    as (H1 & H2 & _).
  split; [exact H1|].
  exact (f_equal (fun p => fst (fst (fst (fst p)))) H2).
Defined.

(* ================================================================== *)
(** ** Timers *)

Section TimerFacts.
Context {ModelStats ProviderStats UsageSummary RequestTimelineData : Type}.
Variable getDateRangeFromPeriod : PeriodValue -> DateRange.
Variable b : @Backend ModelStats ProviderStats UsageSummary RequestTimelineData.

Abbreviation St3 := (@PageState ModelStats ProviderStats UsageSummary RequestTimelineData).
Abbreviation Pg3 := (@Page ModelStats ProviderStats UsageSummary RequestTimelineData).

(** The timers [ft] (debounce) and [it] (interval) fit the render values
    [o]: the interval is pending exactly when auto refresh is on, its
    callback closed over the current page and controls, and the debounce's
    callback closed over the current filters. *)
Definition FreshFor (o : St3) (ft it : option (Z * St3)) : Prop :=
  (it = None <-> autoRefresh o = false) /\
  (forall due c, it = Some (due, c) -> page c = page o /\ controls c = controls o) /\
  (forall due c, ft = Some (due, c) -> filters c = filters o).

Definition Fresh (pg : Pg3) : Prop :=
  FreshFor (state pg) (filterTimeout pg) (autoRefreshInterval pg).

Lemma period_eqb_eq x y : period_eqb x y = true -> x = y.
Proof. destruct x, y; simpl; congruence. Qed.

Lemma status_eqb_eq x y : status_eqb x y = true -> x = y.
Proof. destruct x, y; simpl; congruence. Qed.

Lemma sameFilterDeps_true (o n : St3) :
  sameFilterDeps o n = true -> filters o = filters n.
Proof.
  unfold sameFilterDeps, filters. rewrite !andb_true_iff.
  intros [[[Hp Hm] Hv] Hs].
  apply period_eqb_eq in Hp. apply status_eqb_eq in Hs.
  apply String.eqb_eq in Hm, Hv. congruence.
Qed.

Lemma sameAutoRefreshDeps_true (o n : St3) :
  sameAutoRefreshDeps o n = true ->
  autoRefresh o = autoRefresh n /\ page o = page n /\ controls o = controls n.
Proof.
  unfold sameAutoRefreshDeps, sameLoadRecords, samePageDeps.
  rewrite !andb_true_iff.
  intros [[Ha [[[Hp Hps] Hcs] Hf]] _].
  apply sameFilterDeps_true in Hf. unfold filters in Hf.
  injection Hf as F1 F2 F3 F4.
  apply Bool.eqb_prop in Ha. apply Z.eqb_eq in Hp, Hps.
  apply String.eqb_eq in Hcs. unfold controls. repeat split; congruence.
Qed.

Lemma rerender_filterTimeout (o : St3) (pg : Pg3) :
  filterTimeout (rerender getDateRangeFromPeriod b o pg)
  = if sameFilterDeps o (state pg) then filterTimeout pg
    else Some (clock pg + 300, state pg).
Proof.
  unfold rerender, autoRefreshEffect, analyticsEffect, pageEffect, filterEffect,
    refreshOnce.
  repeat match goal with
         | |- context [if ?x then _ else _] => destruct x
         end; reflexivity.
Qed.

Lemma rerender_interval (o : St3) (pg : Pg3) :
  autoRefreshInterval (rerender getDateRangeFromPeriod b o pg)
  = if sameAutoRefreshDeps o (state pg) then autoRefreshInterval pg
    else if autoRefresh (state pg) then Some (clock pg + 5000, state pg)
    else None.
Proof.
  unfold rerender, autoRefreshEffect, analyticsEffect, pageEffect, filterEffect,
    refreshOnce.
  repeat match goal with
         | |- context [if ?x then _ else _] => destruct x
         end; reflexivity.
Qed.

Lemma controls_filters (s s' : St3) : controls s = controls s' -> filters s = filters s'.
Proof.
  intros H. destruct (controls_eq _ _ H) as (_ & H1 & H2 & H3 & H4 & _).
  unfold filters. congruence.
Qed.

Lemma rerender_fresh (o : St3) (pg : Pg3) :
  FreshFor o (filterTimeout pg) (autoRefreshInterval pg) ->
  Fresh (rerender getDateRangeFromPeriod b o pg).
Proof.
  intros (H1 & H2 & H3).
  destruct (rerender_keeps getDateRangeFromPeriod b o pg) as [Kp Kc].
  unfold Fresh, FreshFor.
  rewrite rerender_filterTimeout, rerender_interval.
  set (s' := state (rerender getDateRangeFromPeriod b o pg)) in *.
  set (n := state pg) in *.
  assert (Ka : autoRefresh s' = autoRefresh n)
    by (destruct (controls_eq _ _ Kc) as (_ & _ & _ & _ & _ & _ & K); exact K).
  split; [|split].
  - rewrite Ka. destruct (sameAutoRefreshDeps o n) eqn:E.
    + apply sameAutoRefreshDeps_true in E. destruct E as (E & _). rewrite <- E.
      exact H1.
    + destruct (autoRefresh n); split; congruence.
  - intros due c. rewrite Kp, Kc. destruct (sameAutoRefreshDeps o n) eqn:E.
    + apply sameAutoRefreshDeps_true in E. destruct E as (_ & Ep & Ec).
      intros Hi. destruct (H2 due c Hi). split; congruence.
    + destruct (autoRefresh n); [|discriminate].
      intros [= _ <-]. split; reflexivity.
  - intros due c. rewrite (controls_filters _ _ Kc).
    destruct (sameFilterDeps o n) eqn:E.
    + apply sameFilterDeps_true in E. intros Hf. rewrite <- E. exact (H3 due c Hf).
    + intros [= _ <-]. reflexivity.
Qed.

Lemma dispatch_fresh (f : St3 -> St3) (pg : Pg3) :
  Fresh pg -> Fresh (dispatch getDateRangeFromPeriod b f pg).
Proof. intros H. unfold dispatch. apply rerender_fresh. exact H. Qed.

Lemma step_fresh (ev : Event) (pg pg' : Pg3) :
  Fresh pg -> step getDateRangeFromPeriod b ev pg = Some pg' -> Fresh pg'.
Proof.
  intros H. pose proof H as (H1 & H2 & H3).
  destruct ev; cbn [step];
    try (intros [= <-]; first [apply dispatch_fresh; exact H
                              | apply rerender_fresh; exact H]).
  - (* Wait *)
    destruct (_ && _); [|discriminate]. intros [= <-]. exact H.
  - (* FilterTimeoutFires *)
    destruct (filterTimeout pg) as [[due c]|]; [|discriminate].
    destruct (due <=? clock pg); [|discriminate]. intros [= <-].
    apply rerender_fresh.
    change (FreshFor (state pg) None (autoRefreshInterval pg)).
    split; [exact H1|]. split; [exact H2|]. intros ? ? [=].
  - (* IntervalFires *)
    destruct (autoRefreshInterval pg) as [[due c]|] eqn:Ei; [|discriminate].
    destruct (due <=? clock pg); [|discriminate]. intros [= <-].
    apply rerender_fresh.
    change (FreshFor (state pg) (filterTimeout pg) (Some (due + 5000, c))).
    split; [|split; [|exact H3]].
    + split; [discriminate|]. intros Ha. apply H1 in Ha. discriminate Ha.
    + intros due' c' [= _ <-]. exact (H2 due c eq_refl).
Qed.

Lemma exec_fresh (evs : list Event) : forall pg pg' : Pg3,
  Fresh pg -> exec getDateRangeFromPeriod b evs pg = Some pg' -> Fresh pg'.
Proof.
  induction evs as [|ev rest IH]; intros pg pg' H; cbn [exec].
  - intros [= <-]. exact H.
  - destruct (step getDateRangeFromPeriod b ev pg) as [pg1|] eqn:E; [|discriminate].
    apply IH. exact (step_fresh ev pg pg1 H E).
Qed.

Lemma mount_unfold (status : string) :
  mount getDateRangeFromPeriod b status
  = perform b (loadFilterOptions getDateRangeFromPeriod (initialState status : St3))
      (perform b (loadAnalytics getDateRangeFromPeriod (initialState status : St3))
         (perform b (loadRecords getDateRangeFromPeriod (initialState status : St3) false false)
            ((initialPage status)
               <| filterTimeout := Some (300, initialState status) |>))).
Proof. reflexivity. Qed.

Lemma mount_state_keeps (status : string) :
  page (state (mount getDateRangeFromPeriod b status)) = 1 /\
  controls (state (mount getDateRangeFromPeriod b status))
  = controls (initialState status : St3).
Proof.
  rewrite mount_unfold.
  assert (H : (fun s : St3 => (page s, controls s))
                (state (perform b (loadFilterOptions getDateRangeFromPeriod (initialState status : St3))
                  (perform b (loadAnalytics getDateRangeFromPeriod (initialState status : St3))
                    (perform b (loadRecords getDateRangeFromPeriod (initialState status : St3) false false)
                      ((initialPage status)
                         <| filterTimeout := Some (300, initialState status) |>)))))
              = (1, controls (initialState status : St3))).
  { rewrite !(perform_keeps b (fun s : St3 => (page s, controls s)))
      by first [ apply loadRecords_keeps_page
               | apply loadAnalytics_keeps_controls
               | apply loadFilterOptions_keeps_controls ].
    reflexivity. }
  cbv beta in H. split; [exact (f_equal fst H)|exact (f_equal snd H)].
Qed.

Lemma mount_fresh (status : string) : Fresh (mount getDateRangeFromPeriod b status).
Proof.
  destruct (mount_state_keeps status) as [Kp Kc].
  unfold Fresh, FreshFor.
  change (filterTimeout (mount getDateRangeFromPeriod b status))
    with (Some (300, (initialState status : St3))).
  change (autoRefreshInterval (mount getDateRangeFromPeriod b status))
    with (@None (Z * St3)).
  split; [|split].
  - destruct (controls_eq _ _ Kc) as (_ & _ & _ & _ & _ & _ & K). rewrite K.
    split; reflexivity.
  - intros ? ? [=].
  - intros due c [= _ <-]. symmetry. apply controls_filters. exact Kc.
Qed.

(** X13. On every page reached from mount by any sequence of events, the
    auto-refresh interval is pending exactly when auto refresh is switched
    on; so once it is switched off no interval reload can fire, and
    switching it off sends nothing. *)
Theorem no_dangling_interval (status : string) (evs : list Event) (pg : Pg3) :
  exec getDateRangeFromPeriod b evs (mount getDateRangeFromPeriod b status) = Some pg ->
  (autoRefreshInterval pg = None <-> autoRefresh (state pg) = false) /\
  (autoRefresh (state pg) = false ->
   step getDateRangeFromPeriod b IntervalFires pg = None) /\
  (autoRefresh (state pg) = true ->
   exists pg',
     step getDateRangeFromPeriod b ToggleAutoRefresh pg = Some pg' /\
     autoRefreshInterval pg' = None /\
     log pg' = log pg /\
     step getDateRangeFromPeriod b IntervalFires pg' = None).
Proof.
  intros He.
  pose proof (exec_fresh evs _ _ (mount_fresh status) He) as (H1 & H2 & H3).
  split; [exact H1|]. split.
  - intros Ha. apply H1 in Ha. cbn [step]. rewrite Ha. reflexivity.
  - intros Ha. eexists. split; [reflexivity|].
    set (n := (state pg) <| autoRefresh := negb (autoRefresh (state pg)) |>).
    assert (Hn : autoRefresh n = false) by (unfold n; cbn; rewrite Ha; reflexivity).
    assert (Hd : sameAutoRefreshDeps (state pg) n = false).
    { unfold sameAutoRefreshDeps. rewrite Ha, Hn. reflexivity. }
    assert (Hi : autoRefreshInterval
                   (dispatch getDateRangeFromPeriod b
                      (fun s => s <| autoRefresh := negb (autoRefresh s) |>) pg) = None).
    { unfold dispatch. rewrite rerender_interval.
      change (state (pg <| state := _ |>)) with n. rewrite Hd, Hn. reflexivity. }
    split; [exact Hi|]. split.
    + unfold dispatch, rerender, autoRefreshEffect, analyticsEffect, pageEffect,
        filterEffect.
      change (state (pg <| state := _ |>)) with n.
      rewrite Hd, Hn.
      rewrite (sameFilterDeps_eq (state pg) n) by reflexivity.
      rewrite (samePageDeps_eq (state pg) n) by reflexivity.
      rewrite (sameAnalyticsDeps_eq (state pg) n) by reflexivity.
      reflexivity.
    + cbn [step]. rewrite Hi. reflexivity.
Qed.

(** X14. On every page reached from mount, the pending debounce callback
    closed over the current four filters, so the list call it sends carries
    the current period range, model and provider (its page size can be an
    older one); and the pending interval callback closed over the current
    page, page size and filters. *)
Theorem timer_closures_current (status : string) (evs : list Event) (pg : Pg3) :
  exec getDateRangeFromPeriod b evs (mount getDateRangeFromPeriod b status) = Some pg ->
  (forall due c, filterTimeout pg = Some (due, c) ->
     filters c = filters (state pg) /\
     listQuery getDateRangeFromPeriod c true
     = listQuery getDateRangeFromPeriod ((state pg) <| pageSize := pageSize c |>) true) /\
  (forall due c, autoRefreshInterval pg = Some (due, c) ->
     listQuery getDateRangeFromPeriod c false
     = listQuery getDateRangeFromPeriod (state pg) false /\
     statusFilter c = statusFilter (state pg)).
Proof.
  intros He.
  pose proof (exec_fresh evs _ _ (mount_fresh status) He) as (H1 & H2 & H3).
  split.
  - intros due c Hf. pose proof (H3 due c Hf) as F. split; [exact F|].
    unfold filters in F. injection F as F1 F2 F3 F4.
    unfold listQuery. cbn [andb]. cbv zeta.
    change (selectedPeriod ((state pg) <| pageSize := pageSize c |>))
      with (selectedPeriod (state pg)).
    change (modelFilter ((state pg) <| pageSize := pageSize c |>))
      with (modelFilter (state pg)).
    change (providerFilter ((state pg) <| pageSize := pageSize c |>))
      with (providerFilter (state pg)).
    change (pageSize ((state pg) <| pageSize := pageSize c |>)) with (pageSize c).
    rewrite F1, F2, F3. reflexivity.
  - intros due c Hi. destruct (H2 due c Hi) as [Hp Hc].
    destruct (controls_eq _ _ Hc) as (C1 & C2 & C3 & C4 & C5 & _).
    split; [|exact C5].
    unfold listQuery. cbv zeta. rewrite Hp, C1, C2, C3, C4. reflexivity.
Qed.

End TimerFacts.

Lemma no_dangling_interval_witness :
  let evs := [ToggleAutoRefresh; Wait 300; FilterTimeoutFires; Wait 1000] in
  exists pg,
    exec sampleRange sampleBackend evs (mount sampleRange sampleBackend "connected")
      = Some pg /\
    autoRefresh (state pg) = true /\
    (autoRefreshInterval pg = None <-> autoRefresh (state pg) = false).
Proof.
  cbv zeta. eexists. split; [vm_compute; reflexivity|].
  split; [reflexivity|].
  refine (proj1 (no_dangling_interval sampleRange sampleBackend "connected"
            [ToggleAutoRefresh; Wait 300; FilterTimeoutFires; Wait 1000] _ _)).
  vm_compute. reflexivity.
Defined.

Lemma timer_closures_current_witness :
  let evs := [SetModelFilter "gpt"%string; Wait 100; PageSizeChange 50] in
  exists pg due c,
    exec sampleRange sampleBackend evs (mount sampleRange sampleBackend "connected")
      = Some pg /\
    filterTimeout pg = Some (due, c) /\
    filters c = filters (state pg) /\
    pageSize c = 20 /\ pageSize (state pg) = 50.
Proof.
  cbv zeta. do 3 eexists. split; [vm_compute; reflexivity|].
  split; [reflexivity|]. split; [|split; reflexivity].
  refine (proj1 (proj1 (timer_closures_current sampleRange sampleBackend "connected"
            [SetModelFilter "gpt"%string; Wait 100; PageSizeChange 50] _ _) _ _ _)).
  - vm_compute. reflexivity.
  - reflexivity.
Defined.

(* ================================================================== *)
(** ** Mount and connection changes *)

Section ConnectionFacts.
Context {ModelStats ProviderStats UsageSummary RequestTimelineData : Type}.
Variable getDateRangeFromPeriod : PeriodValue -> DateRange.
Variable b : @Backend ModelStats ProviderStats UsageSummary RequestTimelineData.

Abbreviation St4 := (@PageState ModelStats ProviderStats UsageSummary RequestTimelineData).
Abbreviation Pg4 := (@Page ModelStats ProviderStats UsageSummary RequestTimelineData).







End ConnectionFacts.


(* ================================================================== *)
(** ** What a filter change does at once *)

Section FilterChangeFacts.
Context {ModelStats ProviderStats UsageSummary RequestTimelineData : Type}.
Variable getDateRangeFromPeriod : PeriodValue -> DateRange.
Variable b : @Backend ModelStats ProviderStats UsageSummary RequestTimelineData.

Abbreviation St5 := (@PageState ModelStats ProviderStats UsageSummary RequestTimelineData).
Abbreviation Pg5 := (@Page ModelStats ProviderStats UsageSummary RequestTimelineData).






End FilterChangeFacts.

